(** * The AutoTARA web client: request surface and stage pages

    A shallow embedding of the React client under [ui/web/src]:
    [api.js], the seven stage pages ([pages/Stage1.jsx] ... [Stage7.jsx])
    and the two form components of [components/FileUpload.jsx].

    The event handlers of the pages are [async] functions.  They are
    embedded in a small resumption monad [Async]: a handler is a tree of
    state setters, console writes and [await]ed HTTP calls, and it is run
    either to completion against a backend oracle ([exec]) or one event at
    a time next to other handlers that are still waiting ([step]). *)

From Stdlib Require Import String List Bool Arith Lia DecimalString DecimalNat.
Import ListNotations.
Local Open Scope string_scope.
Local Open Scope list_scope.

(** ** Values that cross the wire *)

(** A row of the Stage-1 artifact as the pages read it
    ([asset.assetId], [asset.description]). *)
Module Asset.
Record t := mk { assetId : string; description : string }.
End Asset.

(** A JSON object with string fields, in the order the literal lists them,
    e.g. [{ stakeholder, assetId }]. *)
Definition Body := list (string * string).

(** A [File] handle of the browser; only its name is observable here. *)
Record File := mkFile { file_name : string }.

(** What [axios] is asked to send. [POST_FORM] is the multipart post of
    [uploadSysML] (a [FormData] holding the field ["file"]). *)
Inductive HttpCall :=
| POST (url : string) (data : Body)
| POST_FORM (url : string) (field : string) (f : File)
| GET (url : string).

(** The reason a promise is rejected: [axios] rejects on a network error and
    on every status outside 2xx. *)
Inductive Err :=
| NetworkError
| HttpError (status : nat) (detail : string).

(** The type at which a caller reads [res.data]:
    never ([Ignored]), as the text of a table ([CsvText]), or as the JSON
    array of assets, possibly absent ([AssetList]). *)
Inductive Schema := Ignored | CsvText | AssetList.

Definition data (s : Schema) : Type :=
  match s with
  | Ignored => unit
  | CsvText => string
  | AssetList => option (list Asset.t)
  end.

Inductive Response (R : Type) :=
| Fulfilled (res : R)
| Failed (err : Err).
Arguments Fulfilled {R} res.
Arguments Failed {R} err.

(** An answer of the backend to one call, at whichever type it is read. *)
Definition Answer := forall s : Schema, Response (data s).

(** ** Page state

    The [useState] cells of a stage page.  All seven pages are instances of
    one record; a page that does not declare a cell never writes it
    (Stage 1 has no [error], only Stages 2 and 7 have [stakeholder], only
    Stage 2 has [assets] and [assetId]). *)
Record Page := mkPage {
  loading : bool;
  csv : option string;
  error : option string;
  stakeholder : string;
  assets : list Asset.t;
  assetId : string
}.

(** A call of one of the setter functions returned by [useState]. *)
Inductive Setter :=
| SetLoading (b : bool)
| SetCsv (v : option string)
| SetError (v : option string)
| SetStakeholder (v : string)
| SetAssets (v : list Asset.t)
| SetAssetId (v : string).

Definition apply_setter (a : Setter) (p : Page) : Page :=
  match a with
  | SetLoading b => mkPage b (csv p) (error p) (stakeholder p) (assets p) (assetId p)
  | SetCsv v => mkPage (loading p) v (error p) (stakeholder p) (assets p) (assetId p)
  | SetError v => mkPage (loading p) (csv p) v (stakeholder p) (assets p) (assetId p)
  | SetStakeholder v => mkPage (loading p) (csv p) (error p) v (assets p) (assetId p)
  | SetAssets v => mkPage (loading p) (csv p) (error p) (stakeholder p) v (assetId p)
  | SetAssetId v => mkPage (loading p) (csv p) (error p) (stakeholder p) (assets p) v
  end.

(** ** Asynchronous computations *)

(** An [async] function body: it has resolved, it has thrown, or it performs
    a setter, a [console.error], or an [await] on an HTTP call whose
    continuation receives the settled promise. *)
Inductive Async (A : Type) : Type :=
| Resolve (a : A)
| Reject (e : Err)
| Act (a : Setter) (k : Async A)
| ConsoleError (e : Err) (k : Async A)
| Await (s : Schema) (c : HttpCall) (k : Response (data s) -> Async A).
Arguments Resolve {A} a.
Arguments Reject {A} e.
Arguments Act {A} a k.
Arguments ConsoleError {A} e k.
Arguments Await {A} s c k.

Fixpoint bind {A B} (m : Async A) (f : A -> Async B) : Async B :=
  match m with
  | Resolve a => f a
  | Reject e => Reject e
  | Act a k => Act a (bind k f)
  | ConsoleError e k => ConsoleError e (bind k f)
  | Await s c k => Await s c (fun r => bind (k r) f)
  end.

(** [try { m } catch (err) { h err }] *)
Fixpoint try_catch {A} (m : Async A) (h : Err -> Async A) : Async A :=
  match m with
  | Resolve a => Resolve a
  | Reject e => h e
  | Act a k => Act a (try_catch k h)
  | ConsoleError e k => ConsoleError e (try_catch k h)
  | Await s c k => Await s c (fun r => try_catch (k r) h)
  end.

(** [try { m } finally { fin }]: [fin] runs on both exits and the exit of
    [m] is kept unless [fin] itself throws. *)
Fixpoint try_finally {A} (m : Async A) (fin : Async unit) : Async A :=
  match m with
  | Resolve a => bind fin (fun _ => Resolve a)
  | Reject e => bind fin (fun _ => Reject e)
  | Act a k => Act a (try_finally k fin)
  | ConsoleError e k => ConsoleError e (try_finally k fin)
  | Await s c k => Await s c (fun r => try_finally (k r) fin)
  end.

Definition setLoading (b : bool) : Async unit := Act (SetLoading b) (Resolve tt).
Definition setCsv (v : option string) : Async unit := Act (SetCsv v) (Resolve tt).
Definition setError (v : option string) : Async unit := Act (SetError v) (Resolve tt).
Definition setStakeholder (v : string) : Async unit := Act (SetStakeholder v) (Resolve tt).
Definition setAssets (v : list Asset.t) : Async unit := Act (SetAssets v) (Resolve tt).
Definition setAssetId (v : string) : Async unit := Act (SetAssetId v) (Resolve tt).
Definition console_error (e : Err) : Async unit := ConsoleError e (Resolve tt).

(** [await axios...]: the value of a fulfilled promise, or a throw. *)
Definition await (s : Schema) (c : HttpCall) : Async (data s) :=
  Await s c (fun r => match r with
                      | Fulfilled res => Resolve res
                      | Failed e => Reject e
                      end).

Declare Scope async_scope.
Delimit Scope async_scope with async.
Notation "x <- m ;; k" := (bind m (fun x => k))
  (at level 61, m at next level, right associativity) : async_scope.
Notation "m ;; k" := (bind m (fun _ => k))
  (at level 61, right associativity) : async_scope.
Notation "'TRY' m 'CATCH' h 'FINALLY' f" := (try_finally (try_catch m h) f)
  (at level 62, m at level 61, h at level 61, f at level 61) : async_scope.
Local Open Scope async_scope.

(** ** [api.js] *)

Definition string_of_nat (n : nat) : string :=
  NilEmpty.string_of_uint (Nat.to_uint n).

Module api.

Definition API_BASE := "http://localhost:8000".

Definition uploadSysML (field : string) (f : File) : Async unit :=
  await Ignored (POST_FORM (API_BASE ++ "/upload-sysml") field f).

(** [runStage: (id, data = {}) => axios.post(`${API_BASE}/run-stage/${id}`, data)];
    [None] is the omitted second argument. *)
Definition runStage (id : nat) (data : option Body) : Async unit :=
  await Ignored
    (POST (API_BASE ++ "/run-stage/" ++ string_of_nat id)
          (match data with Some d => d | None => [] end)).

Definition getAssets : Async (option (list Asset.t)) :=
  await AssetList (GET (API_BASE ++ "/assets")).

Definition getCsv (name : string) : Async string :=
  await CsvText (GET (API_BASE ++ "/csv/" ++ name)).

End api.

(** ** What a page renders

    Only the parts of the JSX tree that decide which events can reach the
    handlers: the run button, the two [select]s, and the conditional
    [error] and [csv] blocks. *)

Record Button := mkButton { disabled : bool; label : string }.

Record Select := mkSelect {
  value : string;
  options : list string;
  select_disabled : bool
}.

Record View := mkView {
  run_button : Button;
  asset_select : option Select;
  stakeholder_select : option Select;
  error_block : option string;
  csv_block : option string
}.

(** JavaScript truthiness of a string, and of a nullable string. *)
Definition truthy (s : string) : bool := negb (s =? "").
Definition truthy_opt (v : option string) : bool :=
  match v with Some s => truthy s | None => false end.

(** [{v && <block>{v}</block>}] *)
Definition when_truthy (v : option string) : option string :=
  if truthy_opt v then v else None.

(** The two [<option>] elements of the stakeholder [select]; an [option]
    without a [value] attribute has its text as value. *)
Definition stakeholder_options : list string := ["Road User"; "OEM"].

(** ** The stage pages *)

Module Stage1.

Definition initial : Page := mkPage false None None "" [] "".

Definition handleUpload (file : File) : Async unit :=
  setLoading true ;;
  api.uploadSysML "file" file ;;
  setLoading false.

Definition runStage (p : Page) : Async unit :=
  setLoading true ;;
  api.runStage 1 None ;;
  res <- api.getCsv "assets.csv" ;;
  setCsv (Some res) ;;
  setLoading false.

Definition render (p : Page) : View :=
  mkView
    (mkButton false (if loading p then "Running..." else "Run Stage 1"))
    None None None
    (when_truthy (csv p)).

End Stage1.

Module Stage2.

Definition initial : Page := mkPage false None None "Road User" [] "".

(** The effect run once when the page is mounted. *)
Definition fetchAssets : Async unit :=
  try_catch
    (res <- api.getAssets ;;
     let list := match res with Some l => l | None => [] end in
     setAssets list ;;
     match list with
     | a :: _ =>
         setAssetId (Asset.assetId a) ;;
         setError None
     | [] =>
         setError (Some "Run Stage 1 to populate assets before generating damage scenarios.")
     end)
    (fun err =>
       console_error err ;;
       setError (Some "Unable to load assets. Run Stage 1 first.")).

(** The closure [runStage] of the render in which the page state is [p].
    The early [return] inside [try] skips the rest of the block and still
    goes through [finally]. *)
Definition runStage (p : Page) : Async unit :=
  TRY
    (if negb (truthy (assetId p)) then
       setError (Some "Select an asset before running Stage 2.")
     else
       setLoading true ;;
       setError None ;;
       api.runStage 2 (Some [("stakeholder", stakeholder p); ("assetId", assetId p)]) ;;
       res <- api.getCsv "damage_scenarios.csv" ;;
       setCsv (Some res))
  CATCH
    (fun err =>
       console_error err ;;
       setError (Some "Failed to run Stage 2. Check backend logs."))
  FINALLY
    (setLoading false).

Definition render (p : Page) : View :=
  mkView
    (mkButton (loading p || negb (truthy (assetId p)))
              (if loading p then "Running..." else "Run Stage 2"))
    (Some (mkSelect (assetId p) (map Asset.assetId (assets p))
                    (match assets p with [] => true | _ => false end)))
    (Some (mkSelect (stakeholder p) stakeholder_options false))
    (when_truthy (error p))
    (when_truthy (csv p)).

End Stage2.

(** Stages 3 to 6 differ only in the stage number, the file fetched and the
    texts; each module below is the page as written. *)
Module Stage3.

Definition initial : Page := mkPage false None None "" [] "".

Definition runStage (p : Page) : Async unit :=
  TRY
    (setLoading true ;;
     setError None ;;
     api.runStage 3 None ;;
     res <- api.getCsv "impact_rating.csv" ;;
     setCsv (Some res))
  CATCH
    (fun err =>
       console_error err ;;
       setError (Some "Failed to run Stage 3. Check backend logs."))
  FINALLY
    (setLoading false).

Definition render (p : Page) : View :=
  mkView
    (mkButton (loading p) (if loading p then "Running..." else "Run Stage 3"))
    None None
    (when_truthy (error p))
    (when_truthy (csv p)).

End Stage3.

Module Stage4.

Definition initial : Page := mkPage false None None "" [] "".

Definition runStage (p : Page) : Async unit :=
  TRY
    (setLoading true ;;
     setError None ;;
     api.runStage 4 None ;;
     res <- api.getCsv "threat_scenarios.csv" ;;
     setCsv (Some res))
  CATCH
    (fun err =>
       console_error err ;;
       setError (Some "Failed to run Stage 4. Check backend logs."))
  FINALLY
    (setLoading false).

Definition render (p : Page) : View :=
  mkView
    (mkButton (loading p) (if loading p then "Running..." else "Run Stage 4"))
    None None
    (when_truthy (error p))
    (when_truthy (csv p)).

End Stage4.

Module Stage5.

Definition initial : Page := mkPage false None None "" [] "".

Definition runStage (p : Page) : Async unit :=
  TRY
    (setLoading true ;;
     setError None ;;
     api.runStage 5 None ;;
     res <- api.getCsv "attack_paths.csv" ;;
     setCsv (Some res))
  CATCH
    (fun err =>
       console_error err ;;
       setError (Some "Failed to run Stage 5. Check backend logs."))
  FINALLY
    (setLoading false).

Definition render (p : Page) : View :=
  mkView
    (mkButton (loading p) (if loading p then "Running..." else "Run Stage 5"))
    None None
    (when_truthy (error p))
    (when_truthy (csv p)).

End Stage5.

Module Stage6.

Definition initial : Page := mkPage false None None "" [] "".

Definition runStage (p : Page) : Async unit :=
  TRY
    (setLoading true ;;
     setError None ;;
     api.runStage 6 None ;;
     res <- api.getCsv "attack_feasibilities.csv" ;;
     setCsv (Some res))
  CATCH
    (fun err =>
       console_error err ;;
       setError (Some "Failed to run Stage 6. Check backend logs."))
  FINALLY
    (setLoading false).

Definition render (p : Page) : View :=
  mkView
    (mkButton (loading p) (if loading p then "Running..." else "Run Stage 6"))
    None None
    (when_truthy (error p))
    (when_truthy (csv p)).

End Stage6.

Module Stage7.

Definition initial : Page := mkPage false None None "Road User" [] "".

Definition runStage (p : Page) : Async unit :=
  TRY
    (setLoading true ;;
     setError None ;;
     api.runStage 7 (Some [("stakeholder", stakeholder p)]) ;;
     res <- api.getCsv "risk_values.csv" ;;
     setCsv (Some res))
  CATCH
    (fun err =>
       console_error err ;;
       setError (Some "Failed to run Stage 7. Check backend logs."))
  FINALLY
    (setLoading false).

Definition render (p : Page) : View :=
  mkView
    (mkButton (loading p) (if loading p then "Running..." else "Run Stage 7"))
    None
    (Some (mkSelect (stakeholder p) stakeholder_options false))
    (when_truthy (error p))
    (when_truthy (csv p)).

End Stage7.

(** The routes of [App]: one page per stage. *)
Inductive Stage := S1 | S2 | S3 | S4 | S5 | S6 | S7.

Definition stage_id (n : Stage) : nat :=
  match n with
  | S1 => 1 | S2 => 2 | S3 => 3 | S4 => 4 | S5 => 5 | S6 => 6 | S7 => 7
  end.

Definition initial (n : Stage) : Page :=
  match n with
  | S1 => Stage1.initial | S2 => Stage2.initial | S3 => Stage3.initial
  | S4 => Stage4.initial | S5 => Stage5.initial | S6 => Stage6.initial
  | S7 => Stage7.initial
  end.

Definition runStage (n : Stage) : Page -> Async unit :=
  match n with
  | S1 => Stage1.runStage | S2 => Stage2.runStage | S3 => Stage3.runStage
  | S4 => Stage4.runStage | S5 => Stage5.runStage | S6 => Stage6.runStage
  | S7 => Stage7.runStage
  end.

Definition render (n : Stage) : Page -> View :=
  match n with
  | S1 => Stage1.render | S2 => Stage2.render | S3 => Stage3.render
  | S4 => Stage4.render | S5 => Stage5.render | S6 => Stage6.render
  | S7 => Stage7.render
  end.

(** ** Running a handler to completion *)

(** The page state together with what has been observed from outside: the
    calls sent, the lines written by [console.error], and the errors of the
    promises the backend rejected. *)
Record World := mkWorld {
  page : Page;
  http : list HttpCall;
  console : list Err;
  rejections : list Err
}.

Definition rejection {R} (r : Response R) : list Err :=
  match r with
  | Fulfilled _ => []
  | Failed e => [e]
  end.

(** The backend seen from the client: its answer to the last call of the
    list, given all calls made before it. *)
Definition Backend := list HttpCall -> Answer.

(** How the promise returned by an [async] function settles. *)
Inductive Outcome (A : Type) :=
| Resolved (a : A)
| Rejected (e : Err).
Arguments Resolved {A} a.
Arguments Rejected {A} e.

Definition update_page (a : Setter) (w : World) : World :=
  mkWorld (apply_setter a (page w)) (http w) (console w) (rejections w).

Definition log_error (e : Err) (w : World) : World :=
  mkWorld (page w) (http w) (console w ++ [e]) (rejections w).

Definition send (c : HttpCall) (w : World) : World :=
  mkWorld (page w) (http w ++ [c]) (console w) (rejections w).

Definition settle {R} (r : Response R) (w : World) : World :=
  mkWorld (page w) (http w) (console w) (rejections w ++ rejection r).

Fixpoint exec {A} (b : Backend) (m : Async A) (w : World) : Outcome A * World :=
  match m with
  | Resolve a => (Resolved a, w)
  | Reject e => (Rejected e, w)
  | Act a k => exec b k (update_page a w)
  | ConsoleError e k => exec b k (log_error e w)
  | Await s c k =>
      let r := b (http w ++ [c]) s in
      exec b (k r) (settle r (send c w))
  end.

(** A page freshly rendered in state [p]: nothing sent, nothing logged. *)
Definition fresh (p : Page) : World := mkWorld p [] [] [].

(** ** Handlers that wait next to each other

    A click starts a handler, which runs up to its first [await] and then
    waits in [pending] until its promise settles; meanwhile the page is
    rendered from the current state and takes further events. *)

Inductive Origin := FromRun | FromUpload | FromMount.

Record Task := mkTask {
  origin : Origin;
  schema : Schema;
  call : HttpCall;
  resume : Response (data schema) -> Async unit
}.

Record Sys := mkSys {
  world : World;
  pending : list Task;
  unhandled : list Err
}.

(** Runs [m] up to its next [await]. A handler that throws ends as an
    unhandled promise rejection: nobody awaits the promise of an event
    handler. *)
Fixpoint start (o : Origin) (m : Async unit) (s : Sys) : Sys :=
  match m with
  | Resolve _ => s
  | Reject e => mkSys (world s) (pending s) (unhandled s ++ [e])
  | Act a k => start o k (mkSys (update_page a (world s)) (pending s) (unhandled s))
  | ConsoleError e k => start o k (mkSys (log_error e (world s)) (pending s) (unhandled s))
  | Await sc c k =>
      mkSys (send c (world s)) (pending s ++ [mkTask o sc c k]) (unhandled s)
  end.

Fixpoint remove_nth {A} (i : nat) (l : list A) : list A :=
  match i, l with
  | _, [] => []
  | O, _ :: l' => l'
  | S i', x :: l' => x :: remove_nth i' l'
  end.

Inductive Event :=
| ClickRun
| ChangeStakeholder (v : string)
| ChangeAsset (v : string)
| Upload (f : File)
| Settle (i : nat) (a : Answer).

Definition set_page (a : Setter) (s : Sys) : Sys :=
  mkSys (update_page a (world s)) (pending s) (unhandled s).

(** Whether the rendered [select] offers [v] to the user. *)
Definition offers (sel : option Select) (v : string) : bool :=
  match sel with
  | Some c => negb (select_disabled c) && existsb (String.eqb v) (options c)
  | None => false
  end.

(** One event on the page of stage [n]; [None] when the rendered page cannot
    produce the event (a disabled button, a value that is not an option, a
    promise that does not exist). *)
Definition step (n : Stage) (s : Sys) (e : Event) : option Sys :=
  let p := page (world s) in
  let v := render n p in
  match e with
  | ClickRun =>
      if disabled (run_button v) then None
      else Some (start FromRun (runStage n p) s)
  | ChangeStakeholder x =>
      if offers (stakeholder_select v) x then Some (set_page (SetStakeholder x) s)
      else None
  | ChangeAsset x =>
      if offers (asset_select v) x then Some (set_page (SetAssetId x) s)
      else None
  | Upload f =>
      match n with
      | S1 => Some (start FromUpload (Stage1.handleUpload f) s)
      | _ => None
      end
  | Settle i a =>
      match nth_error (pending s) i with
      | Some t =>
          let r := a (schema t) in
          Some (start (origin t) (resume t r)
                      (mkSys (settle r (world s)) (remove_nth i (pending s)) (unhandled s)))
      | None => None
      end
  end.

Fixpoint steps (n : Stage) (s : Sys) (es : list Event) : option Sys :=
  match es with
  | [] => Some s
  | e :: es' =>
      match step n s e with
      | Some s' => steps n s' es'
      | None => None
      end
  end.

(** The page right after it is mounted; Stage 2 starts [fetchAssets]. *)
Definition mount (n : Stage) : Sys :=
  let s := mkSys (fresh (initial n)) [] [] in
  match n with
  | S2 => start FromMount Stage2.fetchAssets s
  | _ => s
  end.

Definition reachable (n : Stage) (s : Sys) : Prop :=
  exists es, steps n (mount n) es = Some s.

(** The runs in flight: handlers started by the run button that still wait. *)
Definition is_run (t : Task) : bool :=
  match origin t with FromRun => true | _ => false end.

Definition in_flight (s : Sys) : list Task := filter is_run (pending s).

(** ** [components/FileUpload.jsx]

    The two components keep their own state and talk to the parent through
    a callback prop. A handler returns the new state, the callback
    invocations it made, and how it ended. *)

Module FileUpload.

Record State := mkState { file : option File }.

Definition initial : State := mkState None.

(** [onChange={(e) => setFile(e.target.files[0])}]; [files[0]] is
    [undefined] when the list is empty. *)
Definition onChange (files : list File) (s : State) : State :=
  mkState (hd_error files).

(** An invocation [onUpload(file)], with the argument as passed. *)
Inductive Call := onUpload (arg : option File).

Definition handleUpload (s : State) : State * list Call :=
  match file s with
  | None => (s, [])
  | Some _ => (s, [onUpload (file s)])
  end.

End FileUpload.

Module ModifyPanel.

Record State := mkState { text : string; file : option File }.

Definition initial : State := mkState "" None.

Definition onChangeText (v : string) (s : State) : State := mkState v (file s).
Definition onChangeFile (files : list File) (s : State) : State :=
  mkState (text s) (hd_error files).

(** An invocation [onSubmit(text, file)]. *)
Inductive Call := onSubmit (text : string) (file : option File).

(** [callback text file] tells whether the parent's [onSubmit] returns
    ([None]) or throws. *)
Definition handleSend (callback : string -> option File -> option Err) (s : State)
  : Outcome unit * State * list Call :=
  match callback (text s) (file s) with
  | None => (Resolved tt, mkState "" (file s), [onSubmit (text s) (file s)])
  | Some e => (Rejected e, s, [onSubmit (text s) (file s)])
  end.

End ModifyPanel.

(** ** The vocabulary of the specification

    The tables below restate, per stage, what the specification says a run
    sends and fetches. They are compared with the handlers above, which
    spell the same constants out page by page. *)

(** The stable name under which the artifact of a stage is fetched. *)
Definition artifact_name (n : Stage) : string :=
  match n with
  | S1 => "assets.csv"
  | S2 => "damage_scenarios.csv"
  | S3 => "impact_rating.csv"
  | S4 => "threat_scenarios.csv"
  | S5 => "attack_paths.csv"
  | S6 => "attack_feasibilities.csv"
  | S7 => "risk_values.csv"
  end.

Definition run_url (id : nat) : string :=
  "http://localhost:8000/run-stage/" ++ string_of_nat id.

Definition csv_url (name : string) : string :=
  "http://localhost:8000/csv/" ++ name.

(** The parameters object a page passes to [run-stage]. *)
Definition run_parameters (n : Stage) (p : Page) : Body :=
  match n with
  | S2 => [("stakeholder", stakeholder p); ("assetId", assetId p)]
  | S7 => [("stakeholder", stakeholder p)]
  | _ => []
  end.

Definition run_call (n : Stage) (p : Page) : HttpCall :=
  POST (run_url (stage_id n)) (run_parameters n p).

Definition csv_call (n : Stage) : HttpCall := GET (csv_url (artifact_name n)).

(** The text a page shows when its run fails; Stage 1 has none. *)
Definition failure_message (n : Stage) : option string :=
  match n with
  | S1 => None
  | S2 => Some "Failed to run Stage 2. Check backend logs."
  | S3 => Some "Failed to run Stage 3. Check backend logs."
  | S4 => Some "Failed to run Stage 4. Check backend logs."
  | S5 => Some "Failed to run Stage 5. Check backend logs."
  | S6 => Some "Failed to run Stage 6. Check backend logs."
  | S7 => Some "Failed to run Stage 7. Check backend logs."
  end.

(** Field lookup in a JSON object. *)
Fixpoint field (k : string) (o : Body) : option string :=
  match o with
  | [] => None
  | (k', v) :: o' => if k =? k' then Some v else field k o'
  end.

(** The bodies of the [run-stage] posts of stage [n] found in a log. *)
Fixpoint run_requests (n : Stage) (log : list HttpCall) : list Body :=
  match log with
  | [] => []
  | POST url d :: log' =>
      if url =? run_url (stage_id n) then d :: run_requests n log'
      else run_requests n log'
  | _ :: log' => run_requests n log'
  end.

(** Whether [s] occurs in [t]. *)
Fixpoint includes (s t : string) : bool :=
  prefix s t ||
  match t with
  | EmptyString => false
  | String _ t' => includes s t'
  end.

(** A backend that rejects every call, and one that fulfils every call with
    an empty table. *)
Definition backend_down : Backend := fun _ _ => Failed NetworkError.

Definition answer_ok (txt : string) (rows : option (list Asset.t)) : Answer :=
  fun s =>
    match s with
    | Ignored => Fulfilled tt
    | CsvText => Fulfilled txt
    | AssetList => Fulfilled rows
    end.

Definition answer_down : Answer := fun _ => Failed NetworkError.

Definition backend_ok (txt : string) : Backend := fun _ => answer_ok txt None.

(** A backend that accepts every post and rejects every fetch. *)
Definition backend_no_csv : Backend :=
  fun _ s =>
    match s with
    | Ignored => Fulfilled tt
    | _ => Failed (HttpError 404 "Not Found")
    end.

(** ** Properties of handlers that are still waiting

    Invariants of the running page speak about what a waiting handler will
    do once it is resumed, whatever the answer. *)

(** Started with the loading flag at [l], the handler keeps the flag up
    across every [await] and has it down whenever it ends, by return or by
    throw. *)
Fixpoint releases (l : bool) (m : Async unit) : Prop :=
  match m with
  | Resolve _ => l = false
  | Reject _ => l = false
  | Act (SetLoading l') k => releases l' k
  | Act _ k => releases l k
  | ConsoleError _ k => releases l k
  | Await _ _ k => l = true /\ forall r, releases true (k r)
  end.

(** The handler never writes the loading flag. *)
Fixpoint quiet (m : Async unit) : Prop :=
  match m with
  | Resolve _ => True
  | Reject _ => True
  | Act (SetLoading _) _ => False
  | Act _ k => quiet k
  | ConsoleError _ k => quiet k
  | Await _ _ k => forall r, quiet (k r)
  end.

(** The handler never writes the stakeholder, and every call it sends
    satisfies [P]. *)
Fixpoint sends_only (P : HttpCall -> Prop) (m : Async unit) : Prop :=
  match m with
  | Resolve _ => True
  | Reject _ => True
  | Act (SetStakeholder _) _ => False
  | Act _ k => sends_only P k
  | ConsoleError _ k => sends_only P k
  | Await _ c k => P c /\ forall r, sends_only P (k r)
  end.

(** A call is fine for [Q] when, if it is a POST, its body has a
    [stakeholder] field whose value satisfies [Q]. *)
Definition stakeholder_is (Q : string -> Prop) (d : Body) : Prop :=
  exists v, field "stakeholder" d = Some v /\ Q v.

Definition post_with (Q : string -> Prop) (c : HttpCall) : Prop :=
  match c with
  | POST _ d => stakeholder_is Q d
  | _ => True
  end.

(** At most one run waits, and one waits exactly when the loading flag is
    up; the handlers that are not runs leave the flag alone. *)
Definition single_flight (s : Sys) : Prop :=
  (forall t, In t (pending s) -> is_run t = false -> forall r, quiet (resume t r))
  /\ (if loading (page (world s))
      then exists t, in_flight s = [t] /\ forall r, releases true (resume t r)
      else in_flight s = []).

(** The stakeholder cell satisfies [Q], and so does the stakeholder of every
    POST sent so far or still to be sent by a waiting handler. *)
Definition stakeholder_inv (Q : string -> Prop) (s : Sys) : Prop :=
  Q (stakeholder (page (world s)))
  /\ Forall (post_with Q) (http (world s))
  /\ (forall t, In t (pending s) -> forall r, sends_only (post_with Q) (resume t r)).

(** ** Further vocabulary for the running pages *)

(** Every setter the handler calls satisfies [P] and every call it sends
    satisfies [C], whatever the answers it receives. *)
Fixpoint behaves (P : Setter -> Prop) (C : HttpCall -> Prop) (m : Async unit) : Prop :=
  match m with
  | Resolve _ => True
  | Reject _ => True
  | Act a k => P a /\ behaves P C k
  | ConsoleError _ k => behaves P C k
  | Await _ c k => C c /\ forall r, behaves P C (k r)
  end.

Definition any_call (c : HttpCall) : Prop := True.

Definition is_get (c : HttpCall) : Prop :=
  match c with
  | GET _ => True
  | _ => False
  end.

(** The setter writes neither the asset list nor the selected asset. *)
Definition keeps_selection (a : Setter) : Prop :=
  match a with
  | SetAssets _ => False
  | SetAssetId _ => False
  | _ => True
  end.

(** The ids offered by the asset [select] of Stage 2. *)
Definition asset_ids (p : Page) : list string := map Asset.assetId (assets p).

(** The body names, as [assetId], one of the ids of [ids]. *)
Definition for_listed_asset (ids : list string) (d : Body) : Prop :=
  exists a, field "assetId" d = Some a /\ In a ids.

(** The text of the early return of [Stage2.runStage]. *)
Definition select_asset_message : string := "Select an asset before running Stage 2.".

Definition not_select_asset (a : Setter) : Prop :=
  a <> SetError (Some select_asset_message).

(** The Stage 2 page never shows the text of the early return, and no
    waiting handler will set it. *)
Definition dispatch_inv (s : Sys) : Prop :=
  error (page (world s)) <> Some select_asset_message
  /\ (forall t, In t (pending s) ->
      forall r, behaves not_select_asset any_call (resume t r)).

(** The Stage 2 page either still waits for the asset list, with nothing
    selected and no run sent, or has received it: then the selection is
    empty or one of the listed ids, every run sent names a listed id, and
    the handlers still waiting neither touch the selection nor post. *)
Definition asset_inv (s : Sys) : Prop :=
  (pending s = pending (mount S2)
   /\ assets (page (world s)) = []
   /\ assetId (page (world s)) = ""
   /\ run_requests S2 (http (world s)) = [])
  \/ ((forall t, In t (pending s) ->
       forall r, behaves keeps_selection is_get (resume t r))
      /\ (assetId (page (world s)) = ""
          \/ In (assetId (page (world s))) (asset_ids (page (world s))))
      /\ Forall (for_listed_asset (asset_ids (page (world s))))
                (run_requests S2 (http (world s)))).

(** The handler writes exactly the errors [l] to the console before it ends
    or waits again, writes after each later answer exactly the error of that
    answer, if it is one, and never throws. *)
Fixpoint logs (l : list Err) (m : Async unit) : Prop :=
  match m with
  | Resolve _ => l = []
  | Reject _ => False
  | Act _ k => logs l k
  | ConsoleError e k =>
      match l with
      | e' :: l' => e = e' /\ logs l' k
      | [] => False
      end
  | Await _ _ k => l = [] /\ forall r, logs (rejection r) (k r)
  end.

(** Nothing was thrown out of a handler, the console holds the rejected
    promises in the order they were rejected, and the waiting handlers will
    keep it so. *)
Definition logged_inv (s : Sys) : Prop :=
  unhandled s = []
  /\ console (world s) = rejections (world s)
  /\ (forall t, In t (pending s) -> forall r, logs (rejection r) (resume t r)).

(** ** Sessions on the two form components

    What the user does to a component, in order; a handler that throws ends
    that event only, the component stays mounted with the state it has. *)

Inductive PanelAction :=
| TypeText (v : string)
| PickFile (files : list File)
| PressSend.

Fixpoint panel_session (callback : string -> option File -> option Err)
         (acts : list PanelAction) (s : ModifyPanel.State)
  : ModifyPanel.State * list ModifyPanel.Call :=
  match acts with
  | [] => (s, [])
  | TypeText v :: acts' => panel_session callback acts' (ModifyPanel.onChangeText v s)
  | PickFile files :: acts' => panel_session callback acts' (ModifyPanel.onChangeFile files s)
  | PressSend :: acts' =>
      let r := ModifyPanel.handleSend callback s in
      let r' := panel_session callback acts' (snd (fst r)) in
      (fst r', snd r ++ snd r')
  end.

Definition is_send (a : PanelAction) : bool :=
  match a with
  | PressSend => true
  | _ => false
  end.

Definition is_pick (a : PanelAction) : bool :=
  match a with
  | PickFile _ => true
  | _ => false
  end.

Inductive UploadAction :=
| ChooseFiles (files : list File)
| PressUpload.

Fixpoint upload_session (acts : list UploadAction) (s : FileUpload.State)
  : FileUpload.State * list FileUpload.Call :=
  match acts with
  | [] => (s, [])
  | ChooseFiles files :: acts' => upload_session acts' (FileUpload.onChange files s)
  | PressUpload :: acts' =>
      let r := FileUpload.handleUpload s in
      let r' := upload_session acts' (fst r) in
      (fst r', snd r ++ snd r')
  end.

Definition is_press (a : UploadAction) : bool :=
  match a with
  | PressUpload => true
  | _ => false
  end.

(** Splits a goal about what a handler does into its setters, its calls and
    the answers it may receive. *)
Ltac behaves_cases :=
  repeat (cbn;
          match goal with
          | |- _ /\ _ => split
          | |- forall r : Response _, _ => intros [?|?]
          | |- forall r : Response _ -> _, _ => intros [?|?]
          | |- not_select_asset _ =>
              unfold not_select_asset, select_asset_message; discriminate
          | |- keeps_selection _ => exact I
          | |- any_call _ => exact I
          | |- is_get _ => exact I
          | |- True => exact I
          end).

(** Case analysis on the next answer of the backend [b] in the goal. *)
Ltac answer b :=
  match goal with
  | |- context [b ?h ?s] =>
      let r := fresh "r" in
      let Hr := fresh "Hr" in
      destruct (b h s) as [r|r] eqn:Hr; cbn in *
  end.

(** ** [api.js]: the run-stage operation *)

Lemma string_of_stage_id :
  map (fun n => string_of_nat (stage_id n)) [S1; S2; S3; S4; S5; S6; S7]
  = ["1"; "2"; "3"; "4"; "5"; "6"; "7"].
Proof. reflexivity. Qed.

(** C6. For every stage id and every parameters object, [api.runStage]
    issues exactly one request: a POST to [/run-stage/{id}] under the API
    base whose body is the parameters object, or the empty object when the
    argument is omitted. The promise settles as the backend answers, and the
    page state is not touched. *)
Theorem api_runStage_posts_once (b : Backend) (id : nat) (params : option Body) (w : World) :
  let body := match params with Some d => d | None => [] end in
  let c := POST (run_url id) body in
  let r := b (http w ++ [c]) Ignored in
  api.runStage id params = Await Ignored c (fun r => match r with
                                                     | Fulfilled res => Resolve res
                                                     | Failed e => Reject e
                                                     end)
  /\ http (snd (exec b (api.runStage id params) w)) = http w ++ [c]
  /\ page (snd (exec b (api.runStage id params) w)) = page w
  /\ fst (exec b (api.runStage id params) w)
     = match r with Fulfilled _ => Resolved tt | Failed e => Rejected e end.
Proof.
  cbv zeta. split; [reflexivity|].
  unfold api.runStage, await. cbn [exec].
  destruct (b _ Ignored) as [[]|e]; cbn; auto.
Qed.

(** ** Runs carried to completion *)

Lemma truthy_iff (s : string) : truthy s = true <-> s <> "".
Proof.
  unfold truthy. destruct s; cbn; split; congruence.
Qed.

(** X1. Stages 2 to 7 wrap the run in [try]/[catch]/[finally]: the promise of
    the handler always resolves with the loading flag down, and when a
    promise of the backend was rejected the table shown is the one shown
    before, the error text of the page is set and rendered, and the cause is
    written to the console. *)
Lemma guarded_run (b : Backend) (n : Stage) (p : Page) (w : World) :
  n <> S1 ->
  let r := exec b (runStage n p) w in
  fst r = Resolved tt
  /\ loading (page (snd r)) = false
  /\ (rejections (snd r) <> rejections w ->
      csv (page (snd r)) = csv (page w)
      /\ error (page (snd r)) = failure_message n
      /\ error_block (render n (page (snd r))) = failure_message n
      /\ exists e, rejections (snd r) = rejections w ++ [e]
                   /\ console (snd r) = console w ++ [e]).
Proof.
  intros Hn. destruct n; try congruence; clear Hn;
    unfold runStage, Stage2.runStage, Stage3.runStage, Stage4.runStage,
      Stage5.runStage, Stage6.runStage, Stage7.runStage; cbn;
    try (destruct (assetId p) eqn:Ha; cbn);
    try (answer b; [answer b|]);
    (split; [reflexivity | split; [reflexivity | intros H]]);
    try (exfalso; apply H; now rewrite ?app_nil_r);
    (split; [reflexivity | split; [reflexivity | split; [reflexivity |]]]);
    eexists; (split; [now rewrite ?app_nil_r | reflexivity]).
Qed.

(** X2. Every page leaves the table it shows alone when a promise of its run is
    rejected; this holds on Stage 1 as well. *)
Lemma failed_run_keeps_csv (b : Backend) (n : Stage) (p : Page) (w : World) :
  let r := exec b (runStage n p) w in
  rejections (snd r) <> rejections w ->
  csv (page (snd r)) = csv (page w).
Proof.
  destruct n;
    unfold runStage, Stage1.runStage, Stage2.runStage, Stage3.runStage,
      Stage4.runStage, Stage5.runStage, Stage6.runStage, Stage7.runStage; cbn;
    try (destruct (assetId p) eqn:Ha; cbn);
    try (answer b; [answer b|]); auto;
    intros H; exfalso; apply H; now rewrite ?app_nil_r.
Qed.

(** X3. Stage 1 has no such wrapper: whenever a promise of its run is rejected,
    the handler's own promise is rejected with the same cause, the loading
    flag stays up and nothing is written to the error cell or the console. *)
Lemma unguarded_run (b : Backend) (p : Page) (w : World) :
  let r := exec b (Stage1.runStage p) w in
  rejections (snd r) <> rejections w ->
  loading (page (snd r)) = true
  /\ error (page (snd r)) = error (page w)
  /\ console (snd r) = console w
  /\ exists e, fst r = Rejected e /\ rejections (snd r) = rejections w ++ [e].
Proof.
  unfold Stage1.runStage. cbn.
  answer b; [answer b|]; intros H;
    try (exfalso; apply H; now rewrite ?app_nil_r);
    repeat split; eexists; (split; [reflexivity | now rewrite ?app_nil_r]).
Qed.

(** C1, at the input on which it fails. On the Stage 1 page the backend
    rejects the run request: the handler stops at the rejected [await], so
    its promise is rejected with nobody to receive it, the loading flag is
    still up, the page holds no error text, and the button keeps showing
    [Running...]. The same happens when only the fetch of [assets.csv] is
    rejected. On the running page the click followed by the rejection leaves
    no run waiting, one unhandled rejection, and the flag up for good. *)
Theorem Stage1_failed_run_keeps_loading :
  let r := exec backend_down (Stage1.runStage Stage1.initial) (fresh Stage1.initial) in
  let r' := exec backend_no_csv (Stage1.runStage Stage1.initial) (fresh Stage1.initial) in
  fst r = Rejected NetworkError
  /\ loading (page (snd r)) = true
  /\ error (page (snd r)) = None
  /\ console (snd r) = []
  /\ label (run_button (Stage1.render (page (snd r)))) = "Running..."
  /\ fst r' = Rejected (HttpError 404 "Not Found")
  /\ loading (page (snd r')) = true
  /\ exists s,
       steps S1 (mount S1) [ClickRun; Settle 0 answer_down] = Some s
       /\ in_flight s = []
       /\ unhandled s = [NetworkError]
       /\ loading (page (world s)) = true.
Proof.
  cbn. repeat split. eexists. repeat split.
Qed.

(** C4, at the input on which it fails. On the Stage 1 page, with a table
    already shown, the backend rejects the run request: the table stays, but
    nothing reports the failure; the page has no error text to render and
    the rejection of the handler's promise is received by nobody. *)
Theorem Stage1_failed_run_shows_no_error :
  let p := mkPage false (Some "assetId,description") None "" [] "" in
  let r := exec backend_down (Stage1.runStage p) (fresh p) in
  rejections (snd r) = [NetworkError]
  /\ csv (page (snd r)) = Some "assetId,description"
  /\ error (page (snd r)) = None
  /\ error_block (Stage1.render (page (snd r))) = None
  /\ console (snd r) = []
  /\ fst r = Rejected NetworkError.
Proof.
  cbn. repeat split.
Qed.

(** C5. For every stage, once the backend has fulfilled the run request the
    page sends exactly one more call, the fetch of the table named after the
    stage (stage 1 [assets.csv], stage 2 [damage_scenarios.csv], stage 3
    [impact_rating.csv], stage 4 [threat_scenarios.csv], stage 5
    [attack_paths.csv], stage 6 [attack_feasibilities.csv], stage 7
    [risk_values.csv]), and shows the text it receives. On Stage 2 the run
    is sent only with an asset selected. *)
Theorem run_fetches_artifact_by_name (b : Backend) (n : Stage) (p : Page) :
  (n = S2 -> assetId p <> "") ->
  b [run_call n p] Ignored = Fulfilled tt ->
  let w := snd (exec b (runStage n p) (fresh p)) in
  http w = [run_call n p; csv_call n]
  /\ forall txt, b [run_call n p; csv_call n] CsvText = Fulfilled txt ->
                 csv (page w) = Some txt.
Proof.
  intros Ha Hrun.
  destruct n;
    unfold runStage, Stage1.runStage, Stage2.runStage, Stage3.runStage,
      Stage4.runStage, Stage5.runStage, Stage6.runStage, Stage7.runStage;
    unfold run_call, csv_call in *; cbn in *;
    try (destruct (assetId p) eqn:Hid; [now elim Ha|]; cbn);
    rewrite Hrun; cbn;
    (split; [answer b; reflexivity | intros txt Htxt; rewrite Htxt; reflexivity]).
Qed.

Lemma run_fetches_artifact_by_name_witness :
  let w := snd (exec (backend_ok "id,score") (runStage S3 Stage3.initial)
                     (fresh Stage3.initial)) in
  http w = [POST "http://localhost:8000/run-stage/3" [];
            GET "http://localhost:8000/csv/impact_rating.csv"]
  /\ csv (page w) = Some "id,score".
Proof.
  destruct (run_fetches_artifact_by_name (backend_ok "id,score") S3 Stage3.initial)
    as [Hlog Hcsv].
  - discriminate.
  - reflexivity.
  - split; [exact Hlog | apply Hcsv; reflexivity].
Defined.

(** ** Parameters of the Stage 2 and Stage 7 runs *)

Lemma run_requests_Stage2 (b : Backend) (p : Page) :
  run_requests S2 (http (snd (exec b (Stage2.runStage p) (fresh p))))
  = if truthy (assetId p)
    then [[("stakeholder", stakeholder p); ("assetId", assetId p)]]
    else [].
Proof.
  unfold Stage2.runStage. cbn.
  destruct (assetId p) eqn:Hid; cbn; [reflexivity|].
  answer b; [answer b|]; reflexivity.
Qed.

(** C3, refuted as stated: no Stage 2 run is ever dispatched without an
    [assetId]. Whatever the page state and the backend, no [run-stage]
    request of the Stage 2 handler lacks the field or carries it empty. *)
Lemma Stage2_never_runs_without_asset :
  ~ exists (b : Backend) (p : Page) (body : Body),
      In body (run_requests S2 (http (snd (exec b (Stage2.runStage p) (fresh p)))))
      /\ (field "assetId" body = None \/ field "assetId" body = Some "").
Proof.
  intros (b & p & body & Hin & Hnone).
  rewrite run_requests_Stage2 in Hin.
  destruct (assetId p) eqn:Hid; cbn in Hin; [contradiction|].
  destruct Hin as [<-|[]]. cbn in Hnone.
  destruct Hnone; discriminate.
Qed.

(** C3, amended. Every Stage 2 run request carries the stakeholder and the
    selected asset, and the asset is never empty: with no asset selected the
    handler sends nothing and sets the text [Select an asset before running
    Stage 2.]; with one selected it sends a single run request with both
    fields. A Stage 7 run sends a single run request with the stakeholder. *)
Theorem run_parameters_of_Stage2_and_Stage7 (b : Backend) (p : Page) :
  let w2 := snd (exec b (Stage2.runStage p) (fresh p)) in
  let w7 := snd (exec b (Stage7.runStage p) (fresh p)) in
  (assetId p = "" ->
     http w2 = []
     /\ error (page w2) = Some "Select an asset before running Stage 2."
     /\ loading (page w2) = false)
  /\ (assetId p <> "" ->
     run_requests S2 (http w2)
     = [[("stakeholder", stakeholder p); ("assetId", assetId p)]]
     /\ hd_error (http w2) = Some (run_call S2 p))
  /\ (forall body, In body (run_requests S2 (http w2)) ->
     field "stakeholder" body = Some (stakeholder p)
     /\ field "assetId" body = Some (assetId p)
     /\ assetId p <> "")
  /\ run_requests S7 (http w7) = [[("stakeholder", stakeholder p)]]
  /\ hd_error (http w7) = Some (run_call S7 p).
Proof.
  cbv zeta. repeat apply conj.
  - intros Hid. unfold Stage2.runStage. rewrite Hid. cbn. auto.
  - intros Hid. rewrite run_requests_Stage2.
    unfold Stage2.runStage, run_call.
    destruct (assetId p) eqn:E; [congruence|]. cbn.
    split; [reflexivity|].
    answer b; [answer b|]; now rewrite E.
  - intros body Hin. rewrite run_requests_Stage2 in Hin.
    destruct (assetId p) eqn:E; cbn in Hin; [contradiction|].
    destruct Hin as [<-|[]]. cbn. repeat split. discriminate.
  - unfold Stage7.runStage. cbn. answer b; [answer b|]; reflexivity.
  - unfold Stage7.runStage. cbn. answer b; [answer b|]; reflexivity.
Qed.

Lemma run_parameters_of_Stage2_and_Stage7_witness :
  let none := Stage2.initial in
  let some := mkPage false None None "OEM" [Asset.mk "A1" "Brake ECU"] "A1" in
  http (snd (exec (backend_ok "") (Stage2.runStage none) (fresh none))) = []
  /\ run_requests S2 (http (snd (exec (backend_ok "") (Stage2.runStage some) (fresh some))))
     = [[("stakeholder", "OEM"); ("assetId", "A1")]].
Proof.
  split.
  - apply (proj1 (run_parameters_of_Stage2_and_Stage7 (backend_ok "") Stage2.initial)).
    reflexivity.
  - apply (proj1 (proj2 (run_parameters_of_Stage2_and_Stage7 (backend_ok "")
             (mkPage false None None "OEM" [Asset.mk "A1" "Brake ECU"] "A1")))).
    discriminate.
Defined.

(** ** Loading the asset list on the Stage 2 page *)

(** C7. [fetchAssets] sends one GET to [/assets] and handles every answer:
    a non-empty list is stored and its first asset becomes the selected
    asset, with no error text; an empty or absent list, and a rejected call,
    each leave the selection alone and make the page render a text that
    tells the user to run Stage 1 first. The promise of the effect always
    resolves. *)
Theorem fetchAssets_selects_first_or_asks_for_Stage1 (b : Backend) (p : Page) :
  let r := exec b Stage2.fetchAssets (fresh p) in
  let p' := page (snd r) in
  fst r = Resolved tt
  /\ http (snd r) = [GET "http://localhost:8000/assets"]
  /\ match b [GET "http://localhost:8000/assets"] AssetList with
     | Fulfilled (Some (a :: l)) =>
         assets p' = a :: l
         /\ assetId p' = Asset.assetId a
         /\ error p' = None
     | Fulfilled _ =>
         assets p' = []
         /\ assetId p' = assetId p
         /\ error_block (Stage2.render p')
            = Some "Run Stage 1 to populate assets before generating damage scenarios."
         /\ includes "Run Stage 1" "Run Stage 1 to populate assets before generating damage scenarios."
            = true
     | Failed e =>
         assets p' = assets p
         /\ assetId p' = assetId p
         /\ console (snd r) = [e]
         /\ error_block (Stage2.render p') = Some "Unable to load assets. Run Stage 1 first."
         /\ includes "Run Stage 1" "Unable to load assets. Run Stage 1 first." = true
     end.
Proof.
  unfold Stage2.fetchAssets. cbn.
  destruct (b _ AssetList) as [[[|a l]|]|e]; cbn; repeat split.
Qed.

(** ** The upload control *)

(** C9. With no file selected the upload button does nothing: the state is
    unchanged and [onUpload] is not invoked. In every state, each invocation
    of [onUpload] made by the button passes a file, namely the selected
    one. *)
Theorem handleUpload_needs_a_file (s : FileUpload.State) :
  (FileUpload.file s = None -> FileUpload.handleUpload s = (s, []))
  /\ (forall c, In c (snd (FileUpload.handleUpload s)) ->
        exists f, c = FileUpload.onUpload (Some f) /\ FileUpload.file s = Some f)
  /\ fst (FileUpload.handleUpload s) = s.
Proof.
  unfold FileUpload.handleUpload.
  destruct (FileUpload.file s) as [f|] eqn:Hf; cbn; repeat split; try discriminate.
  - intros c [<-|[]]. exists f. auto.
  - intros c [].
Qed.

Lemma handleUpload_needs_a_file_witness :
  FileUpload.handleUpload FileUpload.initial = (FileUpload.initial, [])
  /\ FileUpload.handleUpload (FileUpload.onChange [] (FileUpload.mkState (Some (mkFile "model.json"))))
     = (FileUpload.mkState None, []).
Proof.
  split.
  - apply (proj1 (handleUpload_needs_a_file FileUpload.initial)). reflexivity.
  - apply (proj1 (handleUpload_needs_a_file
                    (FileUpload.onChange [] (FileUpload.mkState (Some (mkFile "model.json")))))).
    reflexivity.
Defined.

(** ** The modify panel *)

(** C10. The send action invokes the submit callback exactly once, with the
    current text (empty or not) and the currently selected file, and leaves
    the file selection as it was; once the callback has returned, the text
    is the empty string. *)
Theorem handleSend_submits_then_clears_text
        (callback : string -> option File -> option Err) (s : ModifyPanel.State) :
  let r := ModifyPanel.handleSend callback s in
  snd r = [ModifyPanel.onSubmit (ModifyPanel.text s) (ModifyPanel.file s)]
  /\ ModifyPanel.file (snd (fst r)) = ModifyPanel.file s
  /\ (callback (ModifyPanel.text s) (ModifyPanel.file s) = None ->
      fst r = (Resolved tt, ModifyPanel.mkState "" (ModifyPanel.file s))).
Proof.
  unfold ModifyPanel.handleSend.
  destruct (callback _ _); cbn; repeat split; auto; discriminate.
Qed.

Lemma handleSend_submits_then_clears_text_witness :
  let f := Some (mkFile "notes.pdf") in
  fst (ModifyPanel.handleSend (fun _ _ => None) (ModifyPanel.mkState "" f))
  = (Resolved tt, ModifyPanel.mkState "" f)
  /\ fst (ModifyPanel.handleSend (fun _ _ => None) (ModifyPanel.mkState "focus on tampering" f))
  = (Resolved tt, ModifyPanel.mkState "" f)
  /\ snd (ModifyPanel.handleSend (fun _ _ => None) (ModifyPanel.mkState "focus on tampering" f))
  = [ModifyPanel.onSubmit "focus on tampering" f].
Proof.
  repeat apply conj.
  - apply (proj2 (proj2 (handleSend_submits_then_clears_text
             (fun _ _ => None) (ModifyPanel.mkState "" (Some (mkFile "notes.pdf")))))).
    reflexivity.
  - apply (proj2 (proj2 (handleSend_submits_then_clears_text
             (fun _ _ => None)
             (ModifyPanel.mkState "focus on tampering" (Some (mkFile "notes.pdf")))))).
    reflexivity.
  - apply (proj1 (handleSend_submits_then_clears_text
             (fun _ _ => None)
             (ModifyPanel.mkState "focus on tampering" (Some (mkFile "notes.pdf"))))).
Defined.

(** ** Running pages: one run at a time *)

Section RemoveNth.

Context {A : Type} (f : A -> bool).

Lemma remove_nth_In (i : nat) (l : list A) (x : A) :
  In x (remove_nth i l) -> In x l.
Proof.
  revert i. induction l as [|y l IH]; intros [|i]; cbn; auto.
  intros [->|H]; eauto.
Qed.

Lemma filter_remove_nth_other (i : nat) (l : list A) (t : A) :
  nth_error l i = Some t -> f t = false ->
  filter f (remove_nth i l) = filter f l.
Proof.
  revert i. induction l as [|y l IH]; intros [|i]; cbn; try discriminate.
  - intros [= ->] ->. reflexivity.
  - intros Hn Hf. rewrite (IH i Hn Hf). reflexivity.
Qed.

Lemma filter_remove_nth_only (i : nat) (l : list A) (t t' : A) :
  nth_error l i = Some t -> f t = true -> filter f l = [t'] ->
  filter f (remove_nth i l) = [].
Proof.
  revert i. induction l as [|y l IH]; intros [|i]; cbn; try discriminate.
  - intros [= ->] ->. congruence.
  - intros Hn Hf. destruct (f y) eqn:Hy.
    + intros [= _ Hnil]. exfalso.
      assert (Hin : In t (filter f l))
        by (apply filter_In; split; [eapply nth_error_In; eauto | assumption]).
      rewrite Hnil in Hin. contradiction.
    + intros Hl. now apply (IH i).
Qed.

End RemoveNth.

Lemma start_releases (m : Async unit) :
  forall (l : bool) (s : Sys),
    releases l m -> loading (page (world s)) = l ->
    let s' := start FromRun m s in
    (pending s' = pending s /\ loading (page (world s')) = false)
    \/ (exists t, pending s' = pending s ++ [t]
                  /\ is_run t = true
                  /\ loading (page (world s')) = true
                  /\ forall r, releases true (resume t r)).
Proof.
  induction m as [u|e|a k IH|e k IH|sc c k IH]; intros l s Hm Hl; cbn in *.
  - left. split; congruence.
  - left. split; congruence.
  - destruct a;
      (refine (IH _ (mkSys (update_page _ (world s)) (pending s) (unhandled s)) Hm _);
       cbn; auto).
  - refine (IH _ (mkSys (log_error e (world s)) (pending s) (unhandled s)) Hm _);
      cbn; auto.
  - right. destruct Hm as [-> Hk].
    exists (mkTask FromRun sc c k). cbn. auto.
Qed.

Lemma start_quiet (o : Origin) (m : Async unit) :
  forall (s : Sys),
    quiet m ->
    let s' := start o m s in
    loading (page (world s')) = loading (page (world s))
    /\ (pending s' = pending s
        \/ exists t, pending s' = pending s ++ [t]
                     /\ origin t = o
                     /\ forall r, quiet (resume t r)).
Proof.
  induction m as [u|e|a k IH|e k IH|sc c k IH]; intros s Hm; cbn in *; auto.
  - assert (Hk : quiet k) by (destruct a; auto; contradiction).
    destruct (IH (mkSys (update_page a (world s)) (pending s) (unhandled s)) Hk)
      as [Hl Hp].
    split; [|exact Hp]. rewrite Hl. destruct a; try contradiction; reflexivity.
  - destruct (IH (mkSys (log_error e (world s)) (pending s) (unhandled s)) Hm)
      as [Hl Hp]; split; [rewrite Hl; reflexivity | exact Hp].
  - split; [reflexivity|]. right.
    exists (mkTask o sc c k). cbn. auto.
Qed.

Lemma runStage_releases (n : Stage) (p : Page) :
  n <> S1 -> releases false (runStage n p).
Proof.
  intros Hn. destruct n; try congruence;
    unfold runStage, Stage2.runStage, Stage3.runStage, Stage4.runStage,
      Stage5.runStage, Stage6.runStage, Stage7.runStage; cbn;
    try (destruct (assetId p); cbn; [reflexivity|]);
    (split; [reflexivity|]); intros [[]|e]; cbn; auto;
    (split; [reflexivity|]); intros [txt|e]; cbn; auto.
Qed.

Lemma fetchAssets_quiet : quiet Stage2.fetchAssets.
Proof.
  unfold Stage2.fetchAssets. cbn. intros [[[|a l]|]|e]; cbn; auto.
Qed.

Lemma click_needs_idle (n : Stage) (p : Page) :
  n <> S1 -> disabled (run_button (render n p)) = false -> loading p = false.
Proof.
  intros Hn. destruct n; try congruence; cbn; auto.
  intros H. apply orb_false_iff in H. tauto.
Qed.

Lemma mount_single_flight (n : Stage) : single_flight (mount n).
Proof.
  destruct n; cbn; (split; [|reflexivity]); intros t Hin; try contradiction.
  destruct Hin as [<-|[]]. intros _ r. apply (fetchAssets_quiet r).
Qed.

Lemma step_single_flight (n : Stage) (s s' : Sys) (e : Event) :
  n <> S1 -> single_flight s -> step n s e = Some s' -> single_flight s'.
Proof.
  intros Hn [Hq Hl]. destruct e as [|x|x|f|i a]; unfold step.
  - (* the run button *)
    destruct (disabled _) eqn:Hd; [discriminate|]. intros [= <-].
    pose proof (click_needs_idle n _ Hn Hd) as Hidle.
    rewrite Hidle in Hl.
    destruct (start_releases (runStage n (page (world s))) false s
                (runStage_releases n _ Hn) Hidle)
      as [[Hp Hload]|(t & Hp & Ht & Hload & Hrel)];
      unfold single_flight, in_flight; rewrite Hp, Hload.
    + split; assumption.
    + split.
      * intros t' Hin Hnr r. apply in_app_or in Hin.
        destruct Hin as [Hin|[<-|[]]]; [now apply Hq | congruence].
      * exists t. rewrite filter_app. fold (in_flight s). rewrite Hl. cbn.
        rewrite Ht. auto.
  - destruct (offers _ _); [|discriminate]. intros [= <-].
    split; [exact Hq | exact Hl].
  - destruct (offers _ _); [|discriminate]. intros [= <-].
    split; [exact Hq | exact Hl].
  - destruct n; congruence.
  - destruct (nth_error (pending s) i) as [t|] eqn:Hnth; [|discriminate].
    intros [= <-].
    set (s0 := mkSys (settle (a (schema t)) (world s)) (remove_nth i (pending s))
                     (unhandled s)).
    assert (Hq0 : forall t', In t' (pending s0) -> is_run t' = false ->
                             forall r, quiet (resume t' r)).
    { intros t' Hin. apply Hq. apply (remove_nth_In i). exact Hin. }
    assert (Hin : In t (pending s)) by (eapply nth_error_In; eauto).
    destruct (is_run t) eqn:Hrun.
    + (* a run is resumed *)
      assert (Hfl : In t (in_flight s)) by (apply filter_In; auto).
      destruct (loading (page (world s))) eqn:Hload;
        [|rewrite Hl in Hfl; contradiction].
      destruct Hl as (t1 & Hone & Hrel).
      rewrite Hone in Hfl. destruct Hfl as [->|[]].
      assert (Hnone : in_flight s0 = [])
        by (eapply filter_remove_nth_only; eauto).
      replace (origin t) with FromRun
        by (unfold is_run in Hrun; destruct (origin t); congruence).
      destruct (start_releases (resume t (a (schema t))) true s0 (Hrel _) Hload)
        as [[Hp Hload']|(t2 & Hp & Ht2 & Hload' & Hrel2)];
        unfold single_flight, in_flight; rewrite Hp, Hload'.
      * split; assumption.
      * split.
        -- intros t' Hin' Hnr r. apply in_app_or in Hin'.
           destruct Hin' as [Hin'|[<-|[]]]; [now apply Hq0 | congruence].
        -- exists t2. rewrite filter_app. fold (in_flight s0). rewrite Hnone.
           cbn. rewrite Ht2. auto.
    + (* another handler is resumed *)
      assert (Hsame : in_flight s0 = in_flight s)
        by (eapply filter_remove_nth_other; eauto).
      destruct (start_quiet (origin t) (resume t (a (schema t))) s0 (Hq t Hin Hrun _))
        as [Hload [Hp|(t2 & Hp & Ho & Hq2)]];
        unfold single_flight, in_flight; rewrite Hp, Hload.
      * fold (in_flight s0). rewrite Hsame. split; assumption.
      * assert (Ht2 : is_run t2 = false) by (unfold is_run in *; now rewrite Ho).
        split.
        -- intros t' Hin' Hnr r. apply in_app_or in Hin'.
           destruct Hin' as [Hin'|[<-|[]]]; [now apply Hq0 | apply Hq2].
        -- rewrite filter_app. cbn [filter]. rewrite Ht2, app_nil_r.
           change (filter is_run (pending s0)) with (in_flight s0).
           rewrite Hsame. exact Hl.
Qed.

Lemma steps_single_flight (n : Stage) (es : list Event) :
  forall s s', n <> S1 -> single_flight s -> steps n s es = Some s' -> single_flight s'.
Proof.
  induction es as [|e es IH]; intros s s' Hn Hs; cbn.
  - intros [= <-]. exact Hs.
  - destruct (step n s e) as [s1|] eqn:He; [|discriminate].
    apply IH; [exact Hn|]. eapply step_single_flight; eauto.
Qed.

(** X4. On the pages of Stages 2 to 7, in every state the page can reach: at
    most one run waits for the backend, one waits exactly when the loading
    flag is up, and then the run button is disabled and a click on it is not
    an event of the page. *)
Lemma one_run_at_a_time (n : Stage) (s : Sys) :
  n <> S1 -> reachable n s ->
  length (in_flight s) <= 1
  /\ (loading (page (world s)) = true <-> in_flight s <> [])
  /\ (loading (page (world s)) = true ->
      disabled (run_button (render n (page (world s)))) = true
      /\ step n s ClickRun = None).
Proof.
  intros Hn [es Hes].
  destruct (steps_single_flight n es _ _ Hn (mount_single_flight n) Hes) as [_ Hl].
  assert (Hbtn : loading (page (world s)) = true ->
                 disabled (run_button (render n (page (world s)))) = true).
  { intros Hload. destruct n; try congruence; cbn; rewrite Hload; reflexivity. }
  destruct (loading (page (world s))) eqn:Hload.
  - destruct Hl as (t & -> & _). cbn. split; [lia|]. split.
    + split; [discriminate | reflexivity].
    + intros _. split; [now apply Hbtn|].
      unfold step. now rewrite Hbtn.
  - rewrite Hl. cbn. split; [lia|]. split.
    + split; [discriminate | congruence].
    + discriminate.
Qed.

(** C2, at the input on which it fails. On the Stage 1 page the run button
    carries no [disabled] attribute: after a first click the loading flag is
    up and the button, now labelled [Running...], is still enabled; a second
    click is accepted, a second run request is sent, and two runs of
    Stage 1 wait for the backend together. *)
Theorem Stage1_second_run_while_loading :
  exists s1 s2,
    step S1 (mount S1) ClickRun = Some s1
    /\ loading (page (world s1)) = true
    /\ length (in_flight s1) = 1
    /\ run_button (render S1 (page (world s1))) = mkButton false "Running..."
    /\ step S1 s1 ClickRun = Some s2
    /\ length (in_flight s2) = 2
    /\ http (world s2) = [POST "http://localhost:8000/run-stage/1" [];
                          POST "http://localhost:8000/run-stage/1" []].
Proof.
  do 2 eexists. cbn. repeat split.
Qed.

(** ** Running pages: the stakeholder of a run *)

Lemma start_sends (Q : string -> Prop) (o : Origin) (m : Async unit) :
  forall s, sends_only (post_with Q) m -> stakeholder_inv Q s ->
            stakeholder_inv Q (start o m s).
Proof.
  induction m as [u|e|a k IH|e k IH|sc c k IH]; intros s Hm (Hq & Hlog & Hpend);
    cbn in *.
  - repeat split; assumption.
  - repeat split; assumption.
  - assert (Hk : sends_only (post_with Q) k) by (destruct a; auto; contradiction).
    apply IH; [exact Hk|]. repeat split; cbn; auto.
    destruct a; try contradiction; exact Hq.
  - apply IH; [exact Hm|]. repeat split; cbn; auto.
  - destruct Hm as [Hc Hk]. repeat split; cbn; auto.
    + apply Forall_app. split; [exact Hlog | constructor; [exact Hc | constructor]].
    + intros t Hin. apply in_app_or in Hin.
      destruct Hin as [Hin|[<-|[]]]; [now apply Hpend | exact Hk].
Qed.

Lemma runStage_sends (Q : string -> Prop) (n : Stage) (p : Page) :
  n = S2 \/ n = S7 -> Q (stakeholder p) ->
  sends_only (post_with Q) (runStage n p).
Proof.
  intros [->| ->] Hq;
    unfold runStage, Stage2.runStage, Stage7.runStage; cbn;
    try (destruct (assetId p); cbn; [exact I|]);
    (split; [exists (stakeholder p); split; [reflexivity | exact Hq]|]);
    intros [[]|e]; cbn; auto;
    (split; [exact I|]); intros [txt|e]; cbn; auto.
Qed.

Lemma fetchAssets_sends (Q : string -> Prop) :
  sends_only (post_with Q) Stage2.fetchAssets.
Proof.
  unfold Stage2.fetchAssets. cbn. split; [exact I|].
  intros [[[|a l]|]|e]; cbn; auto.
Qed.

Lemma offers_stakeholder (n : Stage) (p : Page) (x : string) :
  offers (stakeholder_select (render n p)) x = true -> In x stakeholder_options.
Proof.
  destruct n; cbn; try discriminate;
    intros H; repeat (apply orb_prop in H; destruct H as [H|H]);
    try discriminate; apply String.eqb_eq in H; subst; cbn; auto.
Qed.

Lemma step_stakeholder (Q : string -> Prop) (n : Stage) (s s' : Sys) (e : Event) :
  n = S2 \/ n = S7 ->
  (forall x, e = ChangeStakeholder x -> In x stakeholder_options -> Q x) ->
  stakeholder_inv Q s -> step n s e = Some s' -> stakeholder_inv Q s'.
Proof.
  intros Hn He Hs. pose proof Hs as (Hq & Hlog & Hpend).
  destruct e as [|x|x|f|i a]; unfold step.
  - destruct (disabled _); [discriminate|]. intros [= <-].
    apply start_sends; [|exact Hs]. now apply runStage_sends.
  - destruct (offers _ _) eqn:Ho; [|discriminate]. intros [= <-].
    repeat split; cbn; auto.
    apply He; [reflexivity|]. eapply offers_stakeholder; eauto.
  - destruct (offers _ _); [|discriminate]. intros [= <-].
    repeat split; cbn; auto.
  - destruct Hn as [-> | ->]; discriminate.
  - destruct (nth_error (pending s) i) as [t|] eqn:Hnth; [|discriminate].
    intros [= <-]. apply start_sends.
    + apply Hpend. eapply nth_error_In; eauto.
    + repeat split; cbn; auto.
      intros t' Hin. apply Hpend. apply (remove_nth_In i). exact Hin.
Qed.

Lemma steps_stakeholder (Q : string -> Prop) (n : Stage) (es : list Event) :
  forall s s',
    n = S2 \/ n = S7 ->
    (forall x, In (ChangeStakeholder x) es -> In x stakeholder_options -> Q x) ->
    stakeholder_inv Q s -> steps n s es = Some s' -> stakeholder_inv Q s'.
Proof.
  induction es as [|e es IH]; intros s s' Hn He Hs; cbn.
  - intros [= <-]. exact Hs.
  - destruct (step n s e) as [s1|] eqn:Hstep; [|discriminate].
    apply IH; [exact Hn | intros x Hin; apply He; now right |].
    eapply step_stakeholder; eauto.
    intros x -> Hopt. apply He; [now left | exact Hopt].
Qed.

Lemma mount_stakeholder (Q : string -> Prop) (n : Stage) :
  n = S2 \/ n = S7 -> Q "Road User" -> stakeholder_inv Q (mount n).
Proof.
  intros [-> | ->] Hq; cbn; (split; [exact Hq | split]).
  - constructor; [exact I | constructor].
  - intros t [<-|[]] r. apply (proj2 (fetchAssets_sends Q) r).
  - constructor.
  - intros t [].
Qed.

Lemma run_requests_stakeholder (Q : string -> Prop) (n : Stage) (log : list HttpCall) :
  Forall (post_with Q) log -> Forall (stakeholder_is Q) (run_requests n log).
Proof.
  induction 1 as [|c log Hc _ IH]; cbn; [constructor|].
  destruct c as [url d|url fld f|url]; auto.
  destruct (url =? _); auto.
Qed.

(** C8. On the Stage 2 and Stage 7 pages the stakeholder cell starts at
    [Road User], and in every state the page can reach, each run request
    sent so far carries a [stakeholder] field that is [Road User] or [OEM];
    it is [Road User] in all of them when the user never changed the
    selection. Both values occur: for each of them some sequence of events
    makes the page send a run request carrying it. *)
Theorem run_stakeholder_is_Road_User_or_OEM (n : Stage) (es : list Event) (s : Sys) :
  n = S2 \/ n = S7 ->
  steps n (mount n) es = Some s ->
  stakeholder (initial n) = "Road User"
  /\ Forall (fun d => field "stakeholder" d = Some "Road User"
                      \/ field "stakeholder" d = Some "OEM")
            (run_requests n (http (world s)))
  /\ ((forall v, ~ In (ChangeStakeholder v) es) ->
      Forall (fun d => field "stakeholder" d = Some "Road User")
             (run_requests n (http (world s))))
  /\ (forall v, v = "Road User" \/ v = "OEM" ->
      exists es' s',
        steps n (mount n) es' = Some s'
        /\ Exists (fun d => field "stakeholder" d = Some v)
                  (run_requests n (http (world s')))).
Proof.
  intros Hn Hes. repeat apply conj.
  - destruct Hn as [-> | ->]; reflexivity.
  - assert (Hinv : stakeholder_inv (fun v => In v stakeholder_options) s).
    { eapply steps_stakeholder; eauto.
      apply mount_stakeholder; [exact Hn | cbn; auto]. }
    destruct Hinv as (_ & Hlog & _).
    apply (run_requests_stakeholder _ n) in Hlog.
    eapply Forall_impl; [|exact Hlog].
    intros d (v & Hv & [<-|[<-|[]]]); auto.
  - intros Hsame.
    assert (Hinv : stakeholder_inv (fun v => v = "Road User") s).
    { eapply steps_stakeholder; eauto.
      - intros x Hin. now elim (Hsame x).
      - apply mount_stakeholder; [exact Hn | reflexivity]. }
    destruct Hinv as (_ & Hlog & _).
    apply (run_requests_stakeholder _ n) in Hlog.
    eapply Forall_impl; [|exact Hlog].
    intros d (v & Hv & ->); exact Hv.
  - intros v Hv. destruct Hn as [-> | ->].
    + exists [Settle 0 (answer_ok "" (Some [Asset.mk "A1" "Brake ECU"]));
              ChangeStakeholder v; ClickRun].
      destruct Hv as [-> | ->]; eexists; (split; [reflexivity|]);
        cbn; constructor; reflexivity.
    + exists [ChangeStakeholder v; ClickRun].
      destruct Hv as [-> | ->]; eexists; (split; [reflexivity|]);
        cbn; constructor; reflexivity.
Qed.

Lemma run_stakeholder_is_Road_User_or_OEM_witness :
  let a1 := answer_ok "" (Some [Asset.mk "A1" "Brake ECU"]) in
  exists s2 s7,
    steps S2 (mount S2) [Settle 0 a1; ClickRun; Settle 0 answer_down;
                         ChangeStakeholder "OEM"; ClickRun] = Some s2
    /\ run_requests S2 (http (world s2))
       = [[("stakeholder", "Road User"); ("assetId", "A1")];
          [("stakeholder", "OEM"); ("assetId", "A1")]]
    /\ Forall (fun d => field "stakeholder" d = Some "Road User"
                        \/ field "stakeholder" d = Some "OEM")
              (run_requests S2 (http (world s2)))
    /\ steps S7 (mount S7) [ClickRun] = Some s7
    /\ Forall (fun d => field "stakeholder" d = Some "Road User")
              (run_requests S7 (http (world s7))).
Proof.
  do 2 eexists.
  split; [reflexivity|]. split; [reflexivity|]. split; [|split; [reflexivity|]].
  - refine (proj1 (proj2 (run_stakeholder_is_Road_User_or_OEM S2
             [Settle 0 (answer_ok "" (Some [Asset.mk "A1" "Brake ECU"])); ClickRun;
              Settle 0 answer_down; ChangeStakeholder "OEM"; ClickRun]
             _ (or_introl eq_refl) _))).
    reflexivity.
  - refine (proj1 (proj2 (proj2
             (run_stakeholder_is_Road_User_or_OEM S7 [ClickRun] _ (or_intror eq_refl) _))) _).
    + reflexivity.
    + intros v [H|[]]. discriminate.
Defined.

(** ** More on runs carried to completion *)

Lemma guarded_run_witness :
  let p := mkPage false (Some "id,score") None "" [] "" in
  let r := exec backend_no_csv (runStage S5 p) (fresh p) in
  fst r = Resolved tt
  /\ loading (page (snd r)) = false
  /\ csv (page (snd r)) = Some "id,score"
  /\ error (page (snd r)) = Some "Failed to run Stage 5. Check backend logs.".
Proof.
  destruct (guarded_run backend_no_csv S5 (mkPage false (Some "id,score") None "" [] "")
              (fresh (mkPage false (Some "id,score") None "" [] "")))
    as (Hres & Hload & Hfail).
  - discriminate.
  - destruct Hfail as (Hcsv & Herr & _); [discriminate|].
    repeat split; assumption.
Defined.

Lemma failed_run_keeps_csv_witness :
  let p := mkPage false (Some "assetId,description") None "" [] "" in
  csv (page (snd (exec backend_down (runStage S1 p) (fresh p))))
  = Some "assetId,description".
Proof.
  apply (failed_run_keeps_csv backend_down S1
           (mkPage false (Some "assetId,description") None "" [] "")
           (fresh (mkPage false (Some "assetId,description") None "" [] ""))).
  discriminate.
Defined.

Lemma unguarded_run_witness :
  let r := exec backend_no_csv (Stage1.runStage Stage1.initial) (fresh Stage1.initial) in
  loading (page (snd r)) = true /\ console (snd r) = [].
Proof.
  destruct (unguarded_run backend_no_csv Stage1.initial (fresh Stage1.initial))
    as (Hload & _ & Hcon & _).
  - discriminate.
  - split; assumption.
Defined.

(** X5. The calls of a run, on every page and from any log: nothing when
    Stage 2 has no asset selected; otherwise the run request, followed by
    the fetch of the stage's table exactly when the run request was
    fulfilled. A run sends nothing else, and never fetches after a rejected
    run request. *)
Theorem run_sends_post_then_get (b : Backend) (n : Stage) (p : Page) (w : World) :
  http (snd (exec b (runStage n p) w))
  = http w ++
    (if match n with S2 => truthy (assetId p) | _ => true end
     then run_call n p ::
          match b (http w ++ [run_call n p]) Ignored with
          | Fulfilled _ => [csv_call n]
          | Failed _ => []
          end
     else []).
Proof.
  destruct n;
    unfold runStage, Stage1.runStage, Stage2.runStage, Stage3.runStage,
      Stage4.runStage, Stage5.runStage, Stage6.runStage, Stage7.runStage,
      run_call, csv_call; cbn;
    try (destruct (assetId p) eqn:Ha; cbn; [now rewrite app_nil_r|]);
    (answer b; [answer b|]); now rewrite <- ?app_assoc.
Qed.

(** X6. A run whose two calls are fulfilled, on every page: the handler's
    promise resolves, the loading flag is down, the table shown is the text
    received, nothing is recorded as rejected or written to the console, and
    on Stages 2 to 7 an error text left by an earlier run is cleared. *)
Theorem successful_run_shows_table (b : Backend) (n : Stage) (p : Page) (w : World)
        (txt : string) :
  (n = S2 -> assetId p <> "") ->
  b (http w ++ [run_call n p]) Ignored = Fulfilled tt ->
  b ((http w ++ [run_call n p]) ++ [csv_call n]) CsvText = Fulfilled txt ->
  let r := exec b (runStage n p) w in
  fst r = Resolved tt
  /\ loading (page (snd r)) = false
  /\ csv (page (snd r)) = Some txt
  /\ rejections (snd r) = rejections w
  /\ console (snd r) = console w
  /\ error (page (snd r)) = match n with S1 => error (page w) | _ => None end.
Proof.
  intros Ha Hrun Hcsv.
  destruct n;
    unfold runStage, Stage1.runStage, Stage2.runStage, Stage3.runStage,
      Stage4.runStage, Stage5.runStage, Stage6.runStage, Stage7.runStage;
    unfold run_call, csv_call in *; cbn in *;
    try (destruct (assetId p) eqn:Hid; [now elim Ha|]; cbn in *);
    rewrite Hrun; cbn; rewrite Hcsv; cbn; rewrite ?app_nil_r; repeat split.
Qed.

Lemma successful_run_shows_table_witness :
  let p := mkPage false None (Some "Failed to run Stage 7. Check backend logs.")
                  "OEM" [] "" in
  let r := exec (backend_ok "threat,risk") (runStage S7 p) (fresh p) in
  csv (page (snd r)) = Some "threat,risk" /\ error (page (snd r)) = None.
Proof.
  destruct (successful_run_shows_table (backend_ok "threat,risk") S7
              (mkPage false None (Some "Failed to run Stage 7. Check backend logs.")
                      "OEM" [] "")
              (fresh (mkPage false None (Some "Failed to run Stage 7. Check backend logs.")
                             "OEM" [] ""))
              "threat,risk")
    as (_ & _ & Hcsv & _ & _ & Herr).
  - discriminate.
  - reflexivity.
  - reflexivity.
  - split; assumption.
Defined.

(** ** The upload handler of Stage 1 *)

(** X7. [Stage1.handleUpload] sends the file once, as the field [file] of a
    multipart post to [/upload-sysml], and leaves the table and the error
    cell alone. When the post is fulfilled the promise resolves with the
    loading flag down; when it is rejected the handler's promise is rejected
    with the same cause and the flag stays up. *)
Theorem handleUpload_posts_file (b : Backend) (f : File) (w : World) :
  let c := POST_FORM "http://localhost:8000/upload-sysml" "file" f in
  let r := exec b (Stage1.handleUpload f) w in
  http (snd r) = http w ++ [c]
  /\ csv (page (snd r)) = csv (page w)
  /\ error (page (snd r)) = error (page w)
  /\ match b (http w ++ [c]) Ignored with
     | Fulfilled _ => fst r = Resolved tt /\ loading (page (snd r)) = false
     | Failed e => fst r = Rejected e /\ loading (page (snd r)) = true
     end.
Proof.
  unfold Stage1.handleUpload. cbn.
  answer b; repeat split.
Qed.

(** ** Endpoints do not collide *)

Lemma string_of_nat_inj (i j : nat) : string_of_nat i = string_of_nat j -> i = j.
Proof.
  unfold string_of_nat. intros H.
  apply (f_equal NilEmpty.uint_of_string) in H.
  rewrite !NilEmpty.usu in H. injection H as H.
  apply (f_equal Nat.of_uint) in H.
  now rewrite !DecimalNat.Unsigned.of_to in H.
Qed.



Lemma first_call_of_run (b : Backend) (n : Stage) (p : Page) :
  hd_error (http (snd (exec b (runStage n p) (fresh p))))
  = if match n with S2 => truthy (assetId p) | _ => true end
    then Some (run_call n p) else None.
Proof.
  destruct n;
    unfold runStage, Stage1.runStage, Stage2.runStage, Stage3.runStage,
      Stage4.runStage, Stage5.runStage, Stage6.runStage, Stage7.runStage,
      run_call; cbn;
    try (destruct (assetId p) eqn:Ha; cbn; [reflexivity|]);
    (answer b; [answer b|]); reflexivity.
Qed.

Lemma second_call_of_run (b : Backend) (n : Stage) (p : Page) (c : HttpCall) :
  nth_error (http (snd (exec b (runStage n p) (fresh p)))) 1 = Some c ->
  c = csv_call n.
Proof.
  destruct n;
    unfold runStage, Stage1.runStage, Stage2.runStage, Stage3.runStage,
      Stage4.runStage, Stage5.runStage, Stage6.runStage, Stage7.runStage,
      csv_call; cbn;
    try (destruct (assetId p) eqn:Ha; cbn; [discriminate|]);
    (answer b; [answer b|]); cbn; congruence.
Qed.

(** X9. No two pages share an endpoint: when the runs of two pages start with
    the same call, or send the same call in second place, the two pages are
    the page of one stage. *)
Theorem stages_use_distinct_endpoints (b b' : Backend) (n m : Stage) (p q : Page) :
  let log := http (snd (exec b (runStage n p) (fresh p))) in
  let log' := http (snd (exec b' (runStage m q) (fresh q))) in
  (forall c, hd_error log = Some c -> hd_error log' = Some c -> n = m)
  /\ (forall c, nth_error log 1 = Some c -> nth_error log' 1 = Some c -> n = m).
Proof.
  cbv zeta. split; intros c H H'.
  - rewrite first_call_of_run in H, H'.
    destruct (match n with S2 => _ | _ => _ end); [|discriminate].
    destruct (match m with S2 => _ | _ => _ end); [|discriminate].
    injection H as <-. injection H' as Hurl _.
    apply string_of_nat_inj in Hurl.
    destruct n, m; cbn in Hurl; congruence.
  - apply second_call_of_run in H, H'. subst c.
    destruct n, m; try reflexivity; discriminate H'.
Qed.

Lemma stages_use_distinct_endpoints_witness :
  let c := GET "http://localhost:8000/csv/threat_scenarios.csv" in
  nth_error (http (snd (exec (backend_ok "a,b") (runStage S4 Stage4.initial)
                             (fresh Stage4.initial)))) 1 = Some c
  /\ S4 = S4.
Proof.
  split; [reflexivity|].
  refine (proj2 (stages_use_distinct_endpoints (backend_ok "a,b") (backend_ok "a,b")
                   S4 S4 Stage4.initial Stage4.initial)
                (GET "http://localhost:8000/csv/threat_scenarios.csv") _ _);
    reflexivity.
Defined.

(** ** Running pages: what waiting handlers preserve *)

Lemma start_behaves (P : Setter -> Prop) (C : HttpCall -> Prop) (I : Page -> Prop)
      (o : Origin) (m : Async unit) :
  (forall a p, P a -> I p -> I (apply_setter a p)) ->
  forall s,
    behaves P C m -> I (page (world s)) ->
    I (page (world (start o m s)))
    /\ (exists l, http (world (start o m s)) = http (world s) ++ l /\ Forall C l)
    /\ (forall t, In t (pending (start o m s)) ->
        In t (pending s) \/ forall r, behaves P C (resume t r)).
Proof.
  intros HP.
  induction m as [u|e|a k IH|e k IH|sc c k IH]; intros s Hm HI; cbn in *.
  - split; [exact HI|]. split; [exists []; now rewrite app_nil_r | auto].
  - split; [exact HI|]. split; [exists []; now rewrite app_nil_r | auto].
  - destruct Hm as [Ha Hk].
    apply (IH (mkSys (update_page a (world s)) (pending s) (unhandled s)) Hk).
    cbn. now apply HP.
  - apply (IH (mkSys (log_error e (world s)) (pending s) (unhandled s)) Hm). exact HI.
  - destruct Hm as [Hc Hk]. split; [exact HI|]. split.
    + exists [c]. split; [reflexivity | constructor; [exact Hc | constructor]].
    + intros t Hin. apply in_app_or in Hin.
      destruct Hin as [Hin|[<-|[]]]; [now left | right; exact Hk].
Qed.

Lemma run_requests_app (n : Stage) (l l' : list HttpCall) :
  run_requests n (l ++ l') = run_requests n l ++ run_requests n l'.
Proof.
  induction l as [|c l IH]; cbn; [reflexivity|].
  destruct c as [url d|url fld f|url]; auto.
  destruct (url =? _); cbn; now rewrite IH.
Qed.

Lemma run_requests_gets (n : Stage) (l : list HttpCall) :
  Forall is_get l -> run_requests n l = [].
Proof.
  induction 1 as [|c l Hc _ IH]; cbn; [reflexivity|].
  destruct c; cbn in Hc; try contradiction. exact IH.
Qed.

Lemma Stage2_enabled (p : Page) :
  disabled (run_button (render S2 p)) = false ->
  loading p = false /\ assetId p <> "".
Proof.
  cbn. intros H. apply orb_false_iff in H. destruct H as [Hl Ha].
  split; [exact Hl|]. apply truthy_iff. now apply negb_false_iff in Ha.
Qed.

(** ** Stage 2: an accepted click always dispatches *)

Lemma not_select_asset_keeps (a : Setter) (p : Page) :
  not_select_asset a ->
  error p <> Some select_asset_message ->
  error (apply_setter a p) <> Some select_asset_message.
Proof.
  intros Ha Hp. destruct a; cbn; auto.
  intros ->. now apply Ha.
Qed.

Lemma runStage_dispatches (p : Page) :
  assetId p <> "" -> behaves not_select_asset any_call (runStage S2 p).
Proof.
  intros Ha. unfold runStage, Stage2.runStage.
  destruct (assetId p); [congruence|]. behaves_cases.
Qed.

Lemma fetchAssets_dispatch : behaves not_select_asset any_call Stage2.fetchAssets.
Proof.
  unfold Stage2.fetchAssets. cbn. split; [exact I|].
  intros [[[|a l]|]|e]; behaves_cases.
Qed.

Lemma mount_dispatch_inv : dispatch_inv (mount S2).
Proof.
  split; [discriminate|].
  intros t [<-|[]] r. apply (proj2 fetchAssets_dispatch r).
Qed.

Lemma step_dispatch_inv (s s' : Sys) (e : Event) :
  dispatch_inv s -> step S2 s e = Some s' -> dispatch_inv s'.
Proof.
  intros [Herr Hpend].
  assert (Hstart : forall o m s0,
             behaves not_select_asset any_call m ->
             error (page (world s0)) <> Some select_asset_message ->
             (forall t, In t (pending s0) ->
                        forall r, behaves not_select_asset any_call (resume t r)) ->
             dispatch_inv (start o m s0)).
  { intros o m s0 Hm H0 Hp0.
    destruct (start_behaves not_select_asset any_call
                (fun p => error p <> Some select_asset_message) o m
                not_select_asset_keeps s0 Hm H0) as (H1 & _ & H2).
    split; [exact H1|]. intros t Hin. destruct (H2 t Hin); auto. }
  destruct e as [|x|x|f|i a]; unfold step.
  - destruct (disabled _) eqn:Hd; [discriminate|]. intros [= <-].
    apply Hstart; auto. apply runStage_dispatches.
    now apply Stage2_enabled in Hd.
  - destruct (offers _ _); [|discriminate]. intros [= <-]. split; assumption.
  - destruct (offers _ _); [|discriminate]. intros [= <-]. split; assumption.
  - discriminate.
  - destruct (nth_error (pending s) i) as [t|] eqn:Hnth; [|discriminate].
    intros [= <-]. apply Hstart.
    + apply Hpend. eapply nth_error_In; eauto.
    + exact Herr.
    + intros t' Hin. apply Hpend. apply (remove_nth_In i). exact Hin.
Qed.

Lemma steps_dispatch_inv (es : list Event) :
  forall s s', dispatch_inv s -> steps S2 s es = Some s' -> dispatch_inv s'.
Proof.
  induction es as [|e es IH]; intros s s' Hs; cbn.
  - intros [= <-]. exact Hs.
  - destruct (step S2 s e) as [s1|] eqn:He; [|discriminate].
    apply IH. eapply step_dispatch_inv; eauto.
Qed.

(** X10. On the Stage 2 page the guard of the handler and the guard of the
    button agree: in every state the page can reach, a click that the run
    button accepts sends the run request for the selected asset and raises
    the loading flag, and the text of the handler's early return, [Select an
    asset before running Stage 2.], is never the error shown. *)
Theorem Stage2_click_always_dispatches (s : Sys) :
  reachable S2 s ->
  error (page (world s)) <> Some "Select an asset before running Stage 2."
  /\ forall s', step S2 s ClickRun = Some s' ->
                http (world s') = http (world s) ++ [run_call S2 (page (world s))]
                /\ loading (page (world s')) = true
                /\ assetId (page (world s)) <> "".
Proof.
  intros [es Hes]. split.
  - apply (steps_dispatch_inv es _ _ mount_dispatch_inv Hes).
  - intros s'. unfold step.
    destruct (disabled _) eqn:Hd; [discriminate|]. intros [= <-].
    apply Stage2_enabled in Hd. destruct Hd as [_ Ha].
    unfold runStage, Stage2.runStage, run_call. cbn.
    destruct (assetId (page (world s))) eqn:Hid; [congruence|].
    cbn. repeat split. discriminate.
Qed.

Lemma Stage2_click_always_dispatches_witness :
  exists s s',
    steps S2 (mount S2)
          [Settle 0 (answer_ok "" (Some [Asset.mk "A1" "Brake ECU"; Asset.mk "A2" "Gateway"]));
           ChangeAsset "A2"] = Some s
    /\ step S2 s ClickRun = Some s'
    /\ http (world s')
       = [GET "http://localhost:8000/assets";
          POST "http://localhost:8000/run-stage/2"
               [("stakeholder", "Road User"); ("assetId", "A2")]]
    /\ error (page (world s)) <> Some "Select an asset before running Stage 2.".
Proof.
  do 2 eexists.
  split; [reflexivity|]. split; [reflexivity|].
  match goal with
  | |- http (world ?s') = _ /\ error (page (world ?s)) <> _ =>
      destruct (Stage2_click_always_dispatches s
                  (ex_intro _
                     [Settle 0 (answer_ok "" (Some [Asset.mk "A1" "Brake ECU";
                                                    Asset.mk "A2" "Gateway"]));
                      ChangeAsset "A2"] eq_refl)) as [Herr Hclick];
      destruct (Hclick s' eq_refl) as (Hlog & _)
  end.
  split; [exact Hlog | exact Herr].
Defined.

(** ** Stage 2: runs are for listed assets *)

Lemma keeps_selection_frame (A : list Asset.t) (x : string) (a : Setter) (p : Page) :
  keeps_selection a ->
  assets p = A /\ assetId p = x ->
  assets (apply_setter a p) = A /\ assetId (apply_setter a p) = x.
Proof.
  destruct a; cbn; intros Ha Hp; try contradiction; exact Hp.
Qed.

Lemma offers_asset (p : Page) (x : string) :
  offers (asset_select (render S2 p)) x = true -> In x (asset_ids p).
Proof.
  cbn. intros H. apply andb_prop in H. destruct H as [_ H].
  apply existsb_exists in H. destruct H as (y & Hin & Heq).
  apply String.eqb_eq in Heq. now subst.
Qed.

Lemma mount_asset_inv : asset_inv (mount S2).
Proof.
  left. repeat split.
Qed.

Lemma step_asset_inv (s s' : Sys) (e : Event) :
  asset_inv s -> step S2 s e = Some s' -> asset_inv s'.
Proof.
  intros [(Hpend & Hassets & Hid & Hreq)|(Hpend & Hsel & Hreq)].
  - (* the asset list has not arrived *)
    destruct e as [|x|x|f|i a]; unfold step.
    + cbn. rewrite Hid. rewrite orb_true_r. discriminate.
    + destruct (offers _ _); [|discriminate]. intros [= <-].
      left. repeat split; assumption.
    + cbn. rewrite Hassets. discriminate.
    + discriminate.
    + rewrite Hpend. destruct i as [|i]; [|destruct i; discriminate].
      cbn. destruct (a AssetList) as [[[|x l]|]|err]; cbn; intros [= <-];
        right; cbn; (split; [intros t []|]); rewrite Hreq;
        (split; [|constructor]); auto.
  - (* the asset list has arrived *)
    destruct e as [|x|x|f|i a]; unfold step.
    + destruct (disabled _) eqn:Hd; [discriminate|]. intros [= <-].
      apply Stage2_enabled in Hd. destruct Hd as [_ Ha].
      destruct Hsel as [Hsel|Hsel]; [congruence|].
      unfold runStage, Stage2.runStage.
      destruct (assetId (page (world s))) eqn:Hid; [congruence|]. cbn.
      right. cbn. split; [|split].
      * intros t Hin. apply in_app_or in Hin.
        destruct Hin as [Hin|[<-|[]]]; [now apply Hpend|]. behaves_cases.
      * right. rewrite Hid. exact Hsel.
      * rewrite run_requests_app. apply Forall_app. split; [exact Hreq|].
        cbn. constructor; [|constructor].
        eexists. split; [reflexivity | exact Hsel].
    + destruct (offers _ _); [|discriminate]. intros [= <-].
      right. repeat split; assumption.
    + destruct (offers _ _) eqn:Ho; [|discriminate]. intros [= <-].
      right. cbn. split; [exact Hpend|]. split; [|exact Hreq].
      right. now apply offers_asset.
    + discriminate.
    + destruct (nth_error (pending s) i) as [t|] eqn:Hnth; [|discriminate].
      intros [= <-].
      set (s0 := mkSys (settle (a (schema t)) (world s)) (remove_nth i (pending s))
                       (unhandled s)).
      destruct (start_behaves keeps_selection is_get
                  (fun p => assets p = assets (page (world s))
                            /\ assetId p = assetId (page (world s)))
                  (origin t) (resume t (a (schema t)))
                  (keeps_selection_frame _ _) s0)
        as ((HA & HI) & (l & Hl & Hgets) & Hnew).
      * apply Hpend. eapply nth_error_In; eauto.
      * split; reflexivity.
      * right. unfold asset_ids. rewrite HA, HI, Hl.
        split; [|split].
        -- intros t' Hin. destruct (Hnew t' Hin) as [Hold|Hk]; [|exact Hk].
           apply Hpend. apply (remove_nth_In i). exact Hold.
        -- exact Hsel.
        -- rewrite run_requests_app, (run_requests_gets S2 l Hgets), app_nil_r.
           exact Hreq.
Qed.

Lemma steps_asset_inv (es : list Event) :
  forall s s', asset_inv s -> steps S2 s es = Some s' -> asset_inv s'.
Proof.
  induction es as [|e es IH]; intros s s' Hs; cbn.
  - intros [= <-]. exact Hs.
  - destruct (step S2 s e) as [s1|] eqn:He; [|discriminate].
    apply IH. eapply step_asset_inv; eauto.
Qed.

(** X11. On the Stage 2 page, in every state it can reach: the selected asset is
    none or one of the assets listed by [/assets], and every run request
    sent so far names one of the listed assets. In particular, while the
    list is empty (not yet loaded, loaded empty, or failed to load) the page
    has sent no run request. *)
Theorem Stage2_runs_listed_assets (s : Sys) :
  reachable S2 s ->
  let ids := map Asset.assetId (assets (page (world s))) in
  (assetId (page (world s)) = "" \/ In (assetId (page (world s))) ids)
  /\ Forall (fun d => exists a, field "assetId" d = Some a /\ In a ids)
            (run_requests S2 (http (world s)))
  /\ (assets (page (world s)) = [] -> run_requests S2 (http (world s)) = []).
Proof.
  intros [es Hes]. cbv zeta.
  destruct (steps_asset_inv es _ _ mount_asset_inv Hes)
    as [(_ & Hassets & Hid & Hreq)|(_ & Hsel & Hreq)].
  - rewrite Hreq. repeat split; auto.
  - split; [exact Hsel|]. split; [exact Hreq|].
    intros Hnil. unfold asset_ids in Hreq. rewrite Hnil in Hreq.
    destruct (run_requests S2 (http (world s))) as [|d ds]; [reflexivity|].
    inversion Hreq as [|? ? (a & _ & [])].
Qed.

Lemma Stage2_runs_listed_assets_witness :
  exists s,
    steps S2 (mount S2) [ChangeStakeholder "OEM"; Settle 0 answer_down] = Some s
    /\ run_requests S2 (http (world s)) = []
    /\ step S2 s ClickRun = None.
Proof.
  eexists. split; [reflexivity|]. split; [|reflexivity].
  match goal with
  | |- run_requests S2 (http (world ?s)) = [] =>
      apply (proj2 (proj2 (Stage2_runs_listed_assets s
               (ex_intro _ [ChangeStakeholder "OEM"; Settle 0 answer_down] eq_refl))))
  end.
  reflexivity.
Defined.

(** ** Sessions on the form components *)

Lemma panel_session_app (callback : string -> option File -> option Err)
      (acts acts' : list PanelAction) :
  forall s,
    panel_session callback (acts ++ acts') s
    = (fst (panel_session callback acts' (fst (panel_session callback acts s))),
       snd (panel_session callback acts s)
       ++ snd (panel_session callback acts' (fst (panel_session callback acts s)))).
Proof.
  induction acts as [|a acts IH]; intros s; cbn.
  - now destruct (panel_session callback acts' s).
  - destruct a; cbn; rewrite IH; cbn; try reflexivity.
    now rewrite app_assoc.
Qed.

(** X13. The modify panel over a whole session, whatever the callback does: every
    press of [Send] invokes the callback exactly once (an empty text is sent
    like any other, nothing is dropped or repeated), and as long as no other
    file is picked every invocation carries the file selected at the start,
    which is still selected at the end. A press right after a send that
    returned submits the empty text. *)
Theorem panel_session_submits_every_send
        (callback : string -> option File -> option Err)
        (acts : list PanelAction) (s : ModifyPanel.State) :
  let r := panel_session callback acts s in
  length (snd r) = length (filter is_send acts)
  /\ (existsb is_pick acts = false ->
      ModifyPanel.file (fst r) = ModifyPanel.file s
      /\ Forall (fun c => exists t, c = ModifyPanel.onSubmit t (ModifyPanel.file s))
                (snd r))
  /\ (callback (ModifyPanel.text (fst r)) (ModifyPanel.file (fst r)) = None ->
      snd (panel_session callback (acts ++ [PressSend; PressSend]) s)
      = snd r ++ [ModifyPanel.onSubmit (ModifyPanel.text (fst r)) (ModifyPanel.file (fst r));
                  ModifyPanel.onSubmit "" (ModifyPanel.file (fst r))]).
Proof.
  cbv zeta. repeat apply conj.
  - revert s. induction acts as [|a acts IH]; intros s; cbn; [reflexivity|].
    destruct a; cbn; try apply IH.
    rewrite length_app, IH. unfold ModifyPanel.handleSend.
    destruct (callback _ _); reflexivity.
  - revert s. induction acts as [|a acts IH]; intros s; cbn.
    + intros _. split; [reflexivity | constructor].
    + destruct a; cbn; try discriminate.
      * intros Hp. destruct (IH (ModifyPanel.onChangeText v s) Hp) as [Hf Hc].
        split; assumption.
      * intros Hp. unfold ModifyPanel.handleSend.
        destruct (callback _ _); cbn;
          match goal with
          | |- context [panel_session callback acts ?s1] =>
              destruct (IH s1 Hp) as [Hf Hc]
          end;
          (split; [exact Hf | constructor; [eexists; reflexivity | exact Hc]]).
  - intros Hret. rewrite panel_session_app. cbn.
    unfold ModifyPanel.handleSend. rewrite Hret. cbn.
    destruct (callback "" _); reflexivity.
Qed.

Lemma panel_session_submits_every_send_witness :
  let f := Some (mkFile "notes.pdf") in
  snd (panel_session (fun _ _ => None)
         [TypeText "focus on tampering"; PressSend; PressSend]
         (ModifyPanel.mkState "" f))
  = [ModifyPanel.onSubmit "focus on tampering" f; ModifyPanel.onSubmit "" f].
Proof.
  apply (proj2 (proj2 (panel_session_submits_every_send (fun _ _ => None)
           [TypeText "focus on tampering"]
           (ModifyPanel.mkState "" (Some (mkFile "notes.pdf")))))).
  reflexivity.
Defined.

Lemma upload_session_app (acts acts' : list UploadAction) :
  forall s,
    upload_session (acts ++ acts') s
    = (fst (upload_session acts' (fst (upload_session acts s))),
       snd (upload_session acts s)
       ++ snd (upload_session acts' (fst (upload_session acts s)))).
Proof.
  induction acts as [|a acts IH]; intros s; cbn.
  - now destruct (upload_session acts' s).
  - destruct a; cbn; rewrite IH; cbn; try reflexivity.
    now rewrite app_assoc.
Qed.

(** X14. The upload control over a whole session: a press invokes [onUpload] at
    most once and always with a file; after a file dialog the next press
    passes the first file of what the dialog returned, and passes nothing
    when the dialog returned no file, whatever had been selected before. *)
Theorem upload_session_uses_last_dialog (acts : list UploadAction) (files : list File)
        (s : FileUpload.State) :
  let r := upload_session acts s in
  length (snd r) <= length (filter is_press acts)
  /\ Forall (fun c => exists f, c = FileUpload.onUpload (Some f)) (snd r)
  /\ snd (upload_session (acts ++ [ChooseFiles files; PressUpload]) s)
     = snd r ++ match files with
                | [] => []
                | f :: _ => [FileUpload.onUpload (Some f)]
                end.
Proof.
  cbv zeta. repeat apply conj.
  - revert s. induction acts as [|a acts IH]; intros s; cbn; [lia|].
    destruct a; cbn; [apply IH|].
    rewrite length_app. unfold FileUpload.handleUpload.
    destruct (FileUpload.file s); cbn; specialize (IH s); lia.
  - revert s. induction acts as [|a acts IH]; intros s; cbn; [constructor|].
    destruct a; cbn; [apply IH|].
    apply Forall_app. split; [|apply IH].
    unfold FileUpload.handleUpload.
    destruct (FileUpload.file s) as [f|] eqn:Hf; cbn; constructor;
      [exists f; reflexivity | constructor].
  - rewrite upload_session_app. cbn. unfold FileUpload.handleUpload.
    destruct files; cbn; now rewrite ?app_nil_r.
Qed.

(** ** Running pages: every rejection is logged *)

Lemma start_logs (o : Origin) (m : Async unit) :
  forall (l : list Err) (s : Sys),
    logs l m ->
    unhandled (start o m s) = unhandled s
    /\ console (world (start o m s)) = console (world s) ++ l
    /\ rejections (world (start o m s)) = rejections (world s)
    /\ (forall t, In t (pending (start o m s)) ->
        In t (pending s) \/ forall r, logs (rejection r) (resume t r)).
Proof.
  induction m as [u|e|a k IH|e k IH|sc c k IH]; intros l s Hm; cbn in *.
  - subst l. rewrite app_nil_r. auto.
  - contradiction.
  - apply (IH l (mkSys (update_page a (world s)) (pending s) (unhandled s)) Hm).
  - destruct l as [|e' l']; [contradiction|]. destruct Hm as [<- Hk].
    destruct (IH l' (mkSys (log_error e (world s)) (pending s) (unhandled s)) Hk)
      as (Hu & Hc & Hr & Hp).
    split; [exact Hu|]. split; [|split; [exact Hr | exact Hp]].
    rewrite Hc. cbn. now rewrite <- app_assoc.
  - destruct Hm as [-> Hk]. rewrite app_nil_r. repeat split.
    intros t Hin. apply in_app_or in Hin.
    destruct Hin as [Hin|[<-|[]]]; [now left | right; exact Hk].
Qed.

Lemma runStage_logs (n : Stage) (p : Page) : n <> S1 -> logs [] (runStage n p).
Proof.
  intros Hn. destruct n; try congruence;
    unfold runStage, Stage2.runStage, Stage3.runStage, Stage4.runStage,
      Stage5.runStage, Stage6.runStage, Stage7.runStage; cbn;
    try (destruct (assetId p); cbn; [reflexivity|]);
    (split; [reflexivity|]); intros [[]|e]; cbn; auto;
    (split; [reflexivity|]); intros [txt|e]; cbn; auto.
Qed.

Lemma fetchAssets_logs : logs [] Stage2.fetchAssets.
Proof.
  unfold Stage2.fetchAssets. cbn. split; [reflexivity|].
  intros [[[|a l]|]|e]; cbn; auto.
Qed.

Lemma mount_logged_inv (n : Stage) : logged_inv (mount n).
Proof.
  destruct n; cbn; (split; [reflexivity | split; [reflexivity|]]);
    intros t Hin; try contradiction.
  destruct Hin as [<-|[]]. apply (proj2 fetchAssets_logs).
Qed.

Lemma step_logged_inv (n : Stage) (s s' : Sys) (e : Event) :
  n <> S1 -> logged_inv s -> step n s e = Some s' -> logged_inv s'.
Proof.
  intros Hn (Hu & Hc & Hp).
  destruct e as [|x|x|f|i a]; unfold step.
  - destruct (disabled _); [discriminate|]. intros [= <-].
    destruct (start_logs FromRun (runStage n (page (world s))) [] s
                (runStage_logs n _ Hn)) as (Hu' & Hc' & Hr' & Hp').
    split; [congruence|]. split; [rewrite Hc', Hr', app_nil_r; exact Hc|].
    intros t Hin. destruct (Hp' t Hin); auto.
  - destruct (offers _ _); [|discriminate]. intros [= <-].
    split; [exact Hu | split; [exact Hc | exact Hp]].
  - destruct (offers _ _); [|discriminate]. intros [= <-].
    split; [exact Hu | split; [exact Hc | exact Hp]].
  - destruct n; congruence.
  - destruct (nth_error (pending s) i) as [t|] eqn:Hnth; [|discriminate].
    intros [= <-].
    destruct (start_logs (origin t) (resume t (a (schema t))) (rejection (a (schema t)))
                (mkSys (settle (a (schema t)) (world s)) (remove_nth i (pending s))
                       (unhandled s)))
      as (Hu' & Hc' & Hr' & Hp').
    + apply Hp. eapply nth_error_In; eauto.
    + split; [cbn in Hu'; congruence|].
      split; [rewrite Hc', Hr'; cbn; now rewrite Hc|].
      intros t' Hin. destruct (Hp' t' Hin) as [Hold|Hk]; [|exact Hk].
      apply Hp. apply (remove_nth_In i). exact Hold.
Qed.

Lemma steps_logged_inv (n : Stage) (es : list Event) :
  forall s s', n <> S1 -> logged_inv s -> steps n s es = Some s' -> logged_inv s'.
Proof.
  induction es as [|e es IH]; intros s s' Hn Hs; cbn.
  - intros [= <-]. exact Hs.
  - destruct (step n s e) as [s1|] eqn:He; [|discriminate].
    apply IH; [exact Hn|]. eapply step_logged_inv; eauto.
Qed.

(** X12. On the pages of Stages 2 to 7, in every state the page can reach and
    however the answers interleave: no handler has thrown (there is no
    unhandled rejection), and the console holds exactly the errors of the
    promises the backend rejected, each once and in the order of
    rejection. *)
Theorem every_rejection_is_logged (n : Stage) (s : Sys) :
  n <> S1 -> reachable n s ->
  unhandled s = [] /\ console (world s) = rejections (world s).
Proof.
  intros Hn [es Hes].
  destruct (steps_logged_inv n es _ _ Hn (mount_logged_inv n) Hes) as (Hu & Hc & _).
  split; assumption.
Qed.

Lemma every_rejection_is_logged_witness :
  exists s,
    steps S2 (mount S2)
          [Settle 0 (answer_ok "" (Some [Asset.mk "A1" "Brake ECU"]));
           ClickRun; Settle 0 answer_down; ClickRun;
           Settle 0 (fun _ => Failed (HttpError 500 "Internal Server Error"))] = Some s
    /\ unhandled s = []
    /\ console (world s) = [NetworkError; HttpError 500 "Internal Server Error"].
Proof.
  destruct (steps S2 (mount S2)
              [Settle 0 (answer_ok "" (Some [Asset.mk "A1" "Brake ECU"]));
               ClickRun; Settle 0 answer_down; ClickRun;
               Settle 0 (fun _ => Failed (HttpError 500 "Internal Server Error"))])
    as [s|] eqn:E; [|vm_compute in E; discriminate E].
  exists s. split; [reflexivity|].
  destruct (every_rejection_is_logged S2 s) as [Hu Hc];
    [discriminate | eexists; exact E |].
  split; [exact Hu|]. rewrite Hc.
  vm_compute in E. injection E as <-. reflexivity.
Defined.

Lemma one_run_at_a_time_witness :
  exists s,
    steps S3 (mount S3) [ClickRun] = Some s
    /\ length (in_flight s) <= 1
    /\ step S3 s ClickRun = None.
Proof.
  eexists. split; [reflexivity|].
  match goal with
  | |- length (in_flight ?s) <= 1 /\ _ =>
      destruct (one_run_at_a_time S3 s) as (Hlen & _ & Hbtn);
        [discriminate | exists [ClickRun]; reflexivity |]
  end.
  split; [exact Hlen|]. apply Hbtn. reflexivity.
Defined.
